(** * Seminar-kit generator (main.py): outline and Q&A parsers, fallback
    policy, slide and report renderers, artifact retrieval.

    Python values are embedded as follows.
    - [str] is a sequence of Unicode code points ([list N]); the methods
      used by main.py ([strip], [lstrip], [startswith], [split],
      [replace], [in]) are written out on that representation.
    - a dict with a fixed set of keys is a record; the optional key
      ['sub_points'] is an [option].
    - an exception is a value of [exn]; code inside [try] runs in the
      [result] monad and [except Exception] is a match on it.
    - the file system is a finite map from paths to file contents.
    - what main.py does not define is a parameter: the OpenAI client,
      [str.upper], [STATIC_PATH], the value of [uuid.uuid4()] and the
      [save] methods of python-pptx and python-docx, which may raise and
      change the file system in any way, the codec of the transcript
      file and the failures of its opening, writing and closing.
      Building a deck or a document in memory is taken to succeed, and
      [print] is left out. *)

From Stdlib Require Import NArith List Ascii String DecimalString Lia.
From stdpp Require Import base option list gmap.

Open Scope N_scope.
Open Scope list_scope.

(** ** Python strings *)

Abbreviation str := (list N).

(** A literal made of ASCII characters only. *)
Definition lit (s : string) : str :=
  map N_of_ascii (list_ascii_of_string s).

Definition NL : N := 10.        (* line feed *)
Definition SPACE : N := 32.
Definition DQUOTE : N := 34.    (* double quote *)
Definition MINUS : N := 45.     (* hyphen-minus *)
Definition SLASH : N := 47.
Definition COLON : N := 58.
Definition BULLET : N := 8226.  (* U+2022, the glyph of point lines *)
Definition WHITE_BULLET : N := 9702. (* U+25E6, the nested glyph *)

(** [str.isspace] on one code point: the code points Python treats as
    whitespace. *)
Definition isspace (c : N) : bool :=
  ((9 <=? c) && (c <=? 13)) || ((28 <=? c) && (c <=? 32))
  || (c =? 133) || (c =? 160) || (c =? 5760)
  || ((8192 <=? c) && (c <=? 8202))
  || (c =? 8232) || (c =? 8233) || (c =? 8239) || (c =? 8287)
  || (c =? 12288).

Definition in_chars (chars : str) (c : N) : bool := existsb (N.eqb c) chars.

Fixpoint lstrip_by (p : N -> bool) (s : str) : str :=
  match s with
  | [] => []
  | c :: s' => if p c then lstrip_by p s' else s
  end.

Fixpoint rstrip_by (p : N -> bool) (s : str) : str :=
  match s with
  | [] => []
  | c :: s' =>
      match rstrip_by p s' with
      | [] => if p c then [] else [c]
      | r => c :: r
      end
  end.

(** [s.strip()] *)
Definition strip (s : str) : str := rstrip_by isspace (lstrip_by isspace s).

(** [s.lstrip(chars)] *)
Definition lstrip (chars s : str) : str := lstrip_by (in_chars chars) s.

(** [s.startswith(prefix)] *)
Fixpoint startswith (s prefix : str) {struct prefix} : bool :=
  match prefix, s with
  | [], _ => true
  | p :: ps, c :: cs => (c =? p) && startswith cs ps
  | _ :: _, [] => false
  end.

(** [s.endswith(suffix)] *)
Definition endswith (s suffix : str) : bool :=
  startswith (rev s) (rev suffix).

(** [c in s] for a one-character [c] *)
Definition contains (c : N) (s : str) : bool := existsb (N.eqb c) s.

(** [s.split(sep)] for a one-character [sep] *)
Fixpoint split (sep : N) (s : str) : list str :=
  match s with
  | [] => [[]]
  | c :: s' =>
      if c =? sep then [] :: split sep s'
      else match split sep s' with
           | h :: t => (c :: h) :: t
           | [] => [[c]]
           end
  end.

(** [s.split(sep, 1)] for a one-character [sep] *)
Fixpoint split1 (sep : N) (s : str) : list str :=
  match s with
  | [] => [[]]
  | c :: s' =>
      if c =? sep then [[]; s']
      else match split1 sep s' with
           | h :: t => (c :: h) :: t
           | [] => [[c]]
           end
  end.

(** [s.replace(old, new)]: the occurrences of [old] are found left to
    right without overlap; [skip] counts the characters of a match that
    are still to be passed over. *)
Fixpoint replace_from (old new s : str) (skip : nat) : str :=
  match s with
  | [] => []
  | c :: s' =>
      match skip with
      | S k => replace_from old new s' k
      | O =>
          if startswith s old
          then new ++ replace_from old new s' (Nat.pred (length old))
          else c :: replace_from old new s' O
      end
  end.

Definition replace (old new s : str) : str :=
  match old with
  | [] => new ++ flat_map (fun c => c :: new) s
  | _ :: _ => replace_from old new s O
  end.

(** [str(i)] for a non-negative integer *)
Definition str_of_nat (n : nat) : str :=
  lit (NilZero.string_of_uint (Nat.to_uint n)).

(** ['\n'.join(lines)], used to assemble multi-line literals *)
Fixpoint join_lines (lines : list str) : str :=
  match lines with
  | [] => []
  | [l] => l
  | l :: rest => l ++ NL :: join_lines rest
  end.

(** ** Exceptions and the [try] monad *)

(** The exception classes that occur; all derive from [Exception], so
    [except Exception] catches each of them. *)
Inductive exn :=
| Exception (msg : str)
| IndexError (msg : str)
| AttributeError (msg : str)
| OSError (msg : str)
| HTTPException (status_code : nat) (detail : str).

(** [str(e)] *)
Definition str_of_exn (e : exn) : str :=
  match e with
  | Exception m | IndexError m | AttributeError m | OSError m => m
  | HTTPException c d => str_of_nat c ++ lit ": " ++ d
  end.

Inductive result (A : Type) :=
| Ok (a : A)
| Raise (e : exn).
Arguments Ok {A} a.
Arguments Raise {A} e.

#[global] Instance result_ret : MRet result := fun _ a => Ok a.
#[global] Instance result_bind : MBind result := fun _ _ f m =>
  match m with
  | Ok a => f a
  | Raise e => Raise e
  end.

(** [l[i]] *)
Definition index {A} (l : list A) (i : nat) : result A :=
  match l !! i with
  | Some x => Ok x
  | None => Raise (IndexError (lit "list index out of range"))
  end.

(** A [for] loop whose body may raise. *)
Fixpoint for_each {S L} (body : S -> L -> result S) (xs : list L) (st : S)
  : result S :=
  match xs with
  | [] => Ok st
  | x :: rest => st' ← body st x; for_each body rest st'
  end.

(** Truth value of a string: non-empty. *)
Definition truthy (s : str) : bool :=
  match s with [] => false | _ :: _ => true end.

(** ** Data model *)

(** A section dict: ['title'], ['points'] and the optional key
    ['sub_points']. *)
Record section := {
  title : str;
  points : list str;
  sub_points : option (list str)
}.

(** A Q&A dict: ['question'], ['answer']. *)
Record qa := {
  question : str;
  answer : str
}.

(** [student_info], built by [generate_kit] with these five keys. *)
Record student := {
  name : str;
  roll : str;
  college : str;
  semester : str;
  branch : str
}.

(** ** gpt_generate (lines 40-51) *)

(** [create prompt max_tokens] stands for
    [openai.chat.completions.create]: it raises or returns the [content]
    field ([None] possible) of each element of [response.choices]. *)
Definition gpt_generate (create : str -> nat -> result (list (option str)))
    (prompt : str) (max_tokens : nat) : str :=
  let body :=
    choices ← create prompt max_tokens;
    content ← index choices 0;
    match content with
    | Some text => Ok (strip text)
    | None => Raise (AttributeError (lit "'NoneType' object has no attribute 'strip'"))
    end in
  match body with
  | Ok text => text
  | Raise _ => lit "Error generating content for: " ++ take 50 prompt ++ lit "..."
  end.

(** ** generate_detailed_content (lines 186-348) *)

Definition structure_prompt (topic : str) : str :=
  lit "Create a detailed seminar presentation structure for the topic "
  ++ DQUOTE :: topic ++ DQUOTE :: lit "." ++ NL ::
  join_lines
    [
      lit "    ";
      lit "    Generate exactly 6 main sections with the following format:";
      lit "    ";
      lit "    Section 1: Introduction";
      lit "    - Brief overview";
      lit "    - Importance and relevance";
      lit "    - Scope of discussion";
      lit "    ";
      lit "    Section 2: Historical Background / Literature Review";
      lit "    - Origins and development";
      lit "    - Key milestones";
      lit "    - Previous research";
      lit "    ";
      lit "    Section 3: Core Concepts / Theoretical Framework";
      lit "    - Fundamental principles";
      lit "    - Key definitions";
      lit "    - Technical aspects";
      lit "    ";
      lit "    Section 4: Applications / Implementation";
      lit "    - Real-world applications";
      lit "    - Use cases";
      lit "    - Industry adoption";
      lit "    ";
      lit "    Section 5: Challenges and Solutions";
      lit "    - Current limitations";
      lit "    - Technical challenges";
      lit "    - Proposed solutions";
      lit "    ";
      lit "    Section 6: Future Trends / Research Directions";
      lit "    - Emerging trends";
      lit "    - Future possibilities";
      lit "    - Research opportunities";
      lit "    ";
      lit "    For each section, provide:";
      lit "    - 3-4 main bullet points";
      lit "    - 2-3 detailed sub-points for each main point";
      lit "    ";
      lit "    Make the content technical and suitable for academic presentation." ].

(** The dict opened by a section-start line. *)
Definition new_section (section_title : str) : section :=
  {| title := section_title; points := []; sub_points := Some [] |}.

(** [current_section['points'].append(point)] *)
Definition append_point (point : str) (s : section) : section :=
  {| title := title s; points := points s ++ [point];
     sub_points := sub_points s |}.

(** [if current_section: sections.append(current_section)] *)
Definition flush_section (sections : list section)
    (current_section : option section) : list section :=
  match current_section with
  | Some s => sections ++ [s]
  | None => sections
  end.

(** One iteration of the loop of lines 239-261 on the state
    [(sections, current_section)]. *)
Definition outline_step (st : list section * option section) (raw : str)
  : result (list section * option section) :=
  let '(sections, current_section) := st in
  let line := strip raw in
  if negb (truthy line) then Ok st
  else if startswith line (lit "Section") && contains COLON line then
    let sections := flush_section sections current_section in
    part ← index (split1 COLON line) 1;
    let section_title := strip part in
    Ok (sections, Some (new_section section_title))
  else if startswith line [MINUS] && bool_decide (is_Some current_section) then
    let point := strip (lstrip (lit "- ") line) in
    if truthy point
    then Ok (sections, append_point point <$> current_section)
    else Ok st
  else if startswith line [BULLET] && bool_decide (is_Some current_section) then
    let point := strip (lstrip [BULLET; SPACE] line) in
    if truthy point
    then Ok (sections, append_point point <$> current_section)
    else Ok st
  else Ok st.

(** Lines 234-265: the sections parsed from the generated text. *)
Definition parse_outline (detailed_content : str) : result (list section) :=
  st ← for_each outline_step (split NL detailed_content) ([], None);
  Ok (flush_section st.1 st.2).

(** Lines 269-324. *)
Definition fallback_sections (topic : str) : list section :=
  [ {| title := lit "Introduction and Overview";
       points :=
         [ lit "Definition and scope of " ++ topic;
          lit "Importance in current technological landscape";
          lit "Objectives of this presentation";
          lit "Expected outcomes and benefits" ];
       sub_points := None |};
    {| title := lit "Literature Review and Background";
       points :=
         [ lit "Historical development and evolution";
          lit "Key research contributions";
          lit "Current state of technology";
          lit "Gaps in existing knowledge" ];
       sub_points := None |};
    {| title := lit "Core Concepts and Methodology";
       points :=
         [ lit "Fundamental principles and theories";
          lit "Technical architecture and design";
          lit "Implementation methodologies";
          lit "Performance metrics and evaluation" ];
       sub_points := None |};
    {| title := lit "Applications and Case Studies";
       points :=
         [ lit "Industry applications and use cases";
          lit "Real-world implementation examples";
          lit "Success stories and best practices";
          lit "Comparative analysis with alternatives" ];
       sub_points := None |};
    {| title := lit "Challenges and Limitations";
       points :=
         [ lit "Technical challenges and constraints";
          lit "Implementation barriers";
          lit "Cost and resource considerations";
          lit "Scalability and performance issues" ];
       sub_points := None |};
    {| title := lit "Future Scope and Recommendations";
       points :=
         [ lit "Emerging trends and opportunities";
          lit "Research directions and possibilities";
          lit "Recommendations for implementation";
          lit "Expected future developments" ];
       sub_points := None |} ].

(** Lines 331-348. *)
Definition error_sections (topic : str) : list section :=
  [ {| title := lit "Introduction";
       points :=
         [ lit "Overview of " ++ topic;
          lit "Significance and applications";
          lit "Presentation objectives" ];
       sub_points := None |};
    {| title := lit "Technical Details";
       points :=
         [ lit "Core concepts";
          lit "Implementation methods";
          lit "Key features" ];
       sub_points := None |};
    {| title := lit "Applications";
       points :=
         [ lit "Industry use cases";
          lit "Practical examples";
          lit "Benefits and advantages" ];
       sub_points := None |};
    {| title := lit "Future Scope";
       points :=
         [ lit "Emerging trends";
          lit "Research opportunities";
          lit "Potential developments" ];
       sub_points := None |} ].

(** The body of the [try] of lines 230-326.  [generate] is the callee
    bound to the name [gpt_generate] when the call of line 231 runs; it
    returns the generated text or raises. *)
Definition outline_try (generate : str -> nat -> result str) (topic : str)
  : result (list section) :=
  detailed_content ← generate (structure_prompt topic) 1500%nat;
  sections ← parse_outline detailed_content;
  Ok (if (length sections <? 4)%nat then fallback_sections topic else sections).

Definition generate_detailed_content (generate : str -> nat -> result str)
    (topic : str) : list section :=
  match outline_try generate topic with
  | Ok sections => sections
  | Raise _ => error_sections topic
  end.

(** The callee as main.py defines it: [gpt_generate] over the OpenAI
    client. *)
Definition shipped_generate (create : str -> nat -> result (list (option str)))
  : str -> nat -> result str :=
  fun prompt max_tokens => Ok (gpt_generate create prompt max_tokens).

(** ** The Q&A stage of generate_kit (lines 436-496) *)

Definition qna_prompt (topic : str) : str :=
  lit "Generate exactly 8 comprehensive questions and detailed answers for a student seminar presentation on '"
  ++ topic ++ lit "'. " ++ NL ::
  join_lines
    [
      lit "        ";
      lit "        Include questions about:";
      lit "        - Basic concepts and definitions";
      lit "        - Technical implementation";
      lit "        - Applications and use cases  ";
      lit "        - Advantages and disadvantages";
      lit "        - Future scope and trends";
      lit "        - Comparison with alternatives";
      lit "        - Challenges and solutions";
      lit "        - Research opportunities";
      lit "        ";
      lit "        Format each as:";
      lit "        Q: [detailed question]";
      lit "        A: [comprehensive answer in 2-3 sentences]";
      lit "        ";
      lit "        Make answers technical and suitable for academic presentation." ].

(** One iteration of the loop of lines 461-471 on the state
    [(qna_pairs, current_q, current_a)]. *)
Definition qna_step (st : list qa * str * str) (raw : str)
  : list qa * str * str :=
  let '(qna_pairs, current_q, current_a) := st in
  let line := strip raw in
  if startswith line (lit "Q:") || startswith line (lit "Question") then
    let qna_pairs :=
      if truthy current_q && truthy current_a
      then qna_pairs ++ [{| question := current_q; answer := current_a |}]
      else qna_pairs in
    (qna_pairs,
     strip (replace (lit "Question:") [] (replace (lit "Q:") [] line)),
     [])
  else if startswith line (lit "A:") || startswith line (lit "Answer") then
    (qna_pairs, current_q,
     strip (replace (lit "Answer:") [] (replace (lit "A:") [] line)))
  else if truthy current_a && truthy line && negb (startswith line (lit "Q:")) then
    (qna_pairs, current_q, current_a ++ lit " " ++ line)
  else st.

(** Lines 457-475: the pairs parsed from the generated text. *)
Definition parse_qna (qna_text : str) : list qa :=
  let '(qna_pairs, current_q, current_a) :=
    fold_left qna_step (split NL qna_text) ([], [], []) in
  if truthy current_q && truthy current_a
  then qna_pairs ++ [{| question := current_q; answer := current_a |}]
  else qna_pairs.

(** Lines 479-496. *)
Definition fallback_qna (topic : str) : list qa :=
  [ {| question := lit "What is " ++ topic ++ lit " and why is it important?";
       answer := topic ++ lit " is a significant technological advancement that plays a crucial role in modern applications. Its importance lies in its ability to solve complex problems and improve efficiency in various domains." |};
    {| question := lit "What are the key technical components of " ++ topic ++ lit "?";
       answer := lit "The main technical components include core algorithms, implementation frameworks, and supporting infrastructure. These components work together to provide comprehensive functionality." |};
    {| question := lit "What are the real-world applications of " ++ topic ++ lit "?";
       answer := topic ++ lit " finds applications in multiple industries including healthcare, finance, manufacturing, and telecommunications. It enables automation and optimization of complex processes." |};
    {| question := lit "What are the main advantages and limitations of " ++ topic ++ lit "?";
       answer := lit "Key advantages include improved efficiency, scalability, and cost-effectiveness. However, limitations may include implementation complexity, resource requirements, and technical constraints." |};
    {| question := lit "What does the future hold for " ++ topic ++ lit "?";
       answer := lit "Future developments in " ++ topic ++ lit " are expected to focus on enhanced performance, broader applications, and integration with emerging technologies. Research continues to address current limitations." |};
    {| question := lit "How does " ++ topic ++ lit " compare with alternative approaches?";
       answer := lit "Compared to traditional methods, " ++ topic ++ lit " offers superior performance in terms of speed, accuracy, and scalability. However, the choice depends on specific requirements and constraints." |};
    {| question := lit "What are the main challenges in implementing " ++ topic ++ lit "?";
       answer := lit "Implementation challenges include technical complexity, resource allocation, skill requirements, and integration with existing systems. Proper planning and expertise are essential for success." |};
    {| question := lit "What research opportunities exist in " ++ topic ++ lit "?";
       answer := lit "Research opportunities include algorithm optimization, new application domains, performance enhancement, and addressing current limitations. Interdisciplinary collaboration can lead to breakthrough innovations." |} ].

(** Lines 457-496: [qna_pairs] as the renderers receive it. *)
Definition kit_qna_pairs (topic qna_text : str) : list qa :=
  let qna_pairs := parse_qna qna_text in
  if (length qna_pairs <? 5)%nat then fallback_qna topic else qna_pairs.

(** ** The file system *)

(** Regular files by path, each with its bytes. *)
Abbreviation FS := (gmap (list N) (list N)).

(** [os.path.exists(p)] *)
Definition path_exists (fs : FS) (p : str) : bool :=
  bool_decide (is_Some (fs !! p)).

(** [os.path.getsize(p)] *)
Definition getsize (fs : FS) (p : str) : result nat :=
  match fs !! p with
  | Some content => Ok (length content)
  | None => Raise (OSError (lit "[Errno 2] No such file or directory"))
  end.

(** [os.path.join(a, b)] on POSIX *)
Definition path_join (a b : str) : str :=
  if startswith b [SLASH] then b
  else if negb (truthy a) || endswith a [SLASH] then a ++ b
  else a ++ SLASH :: b.

(** ** Slide deck (lines 56-184) *)

(** A slide: the index of its layout in [prs.slide_layouts], the text of
    its title shape and the text of its placeholder 1. *)
Record slide := {
  layout : nat;
  slide_title : str;
  slide_body : str
}.

Definition subtitle_text (student_info : student) : str :=
  join_lines
    [ lit "Presented by: " ++ name student_info;
      lit "Roll No: " ++ roll student_info;
      college student_info;
      lit "Semester: " ++ semester student_info ++ lit " | Branch: "
        ++ branch student_info;
      [];
      lit "Academic Seminar Presentation" ].

(** Lines 102-104; [i] is the number of the first section of [sections]. *)
Fixpoint agenda_from (i : nat) (sections : list section) (agenda_text : str)
  : str :=
  match sections with
  | [] => agenda_text
  | s :: rest =>
      agenda_from (S i) rest
        (agenda_text ++ str_of_nat i ++ lit ". " ++ title s ++ [NL])
  end.

Definition agenda_text (sections : list section) : str :=
  agenda_from 1 sections [].

(** Lines 125-135: the body of the content slide of one section. *)
Definition content_text (s : section) : str :=
  let content_text :=
    fold_left (fun text point => text ++ BULLET :: SPACE :: point ++ [NL])
      (points s) [] in
  match sub_points s with
  | Some subs =>
      fold_left
        (fun text sub_point =>
           text ++ lit "  " ++ WHITE_BULLET :: SPACE :: sub_point ++ [NL])
        subs (content_text ++ NL :: lit "Key Details:" ++ [NL])
  | None => content_text
  end.

(** Lines 140-146: font size and bold flag of one paragraph of a content
    slide. *)
Definition content_font (paragraph_text : str) : nat * bool :=
  if startswith paragraph_text [BULLET] then (20%nat, true)
  else if startswith paragraph_text (lit "  " ++ [WHITE_BULLET])
       then (18%nat, false)
       else (20%nat, false).

Definition conclusion_text (topic : str) : str :=
  join_lines
    [ BULLET :: SPACE :: topic
        ++ lit " represents a significant advancement in technology";
      BULLET :: lit " Widespread applications across multiple industries";
      BULLET :: lit " Continuous research and development ongoing";
      BULLET :: lit " Future implementation will revolutionize current practices";
      BULLET :: lit " Potential for further innovation and improvement";
      [];
      lit "Thank you for your attention!";
      lit "Questions & Discussion" ].

Section Renderers.

(** [str.upper] *)
Variable upper : str -> str.
(** [STATIC_PATH], the absolute path of the output directory *)
Variable STATIC_PATH : str.

Definition content_slide (s : section) : slide :=
  {| layout := 1; slide_title := upper (title s);
     slide_body := content_text s |}.

(** [prs.slides] when line 172 is reached. *)
Definition build_presentation (topic : str) (sections : list section)
    (student_info : student) : list slide :=
  let slides := [] in
  let slides := slides ++
    [{| layout := 0; slide_title := upper topic;
        slide_body := subtitle_text student_info |}] in
  let slides := slides ++
    [{| layout := 1; slide_title := lit "PRESENTATION AGENDA";
        slide_body := agenda_text sections |}] in
  let slides :=
    fold_left (fun slides s => slides ++ [content_slide s]) sections slides in
  slides ++
    [{| layout := 1; slide_title := lit "CONCLUSION & FUTURE SCOPE";
        slide_body := conclusion_text topic |}].

(** [prs.save(file_path)]: writes the deck to the file system or raises. *)
Variable save_pptx : list slide -> str -> FS -> result unit * FS.

(** [file_id] is the value of [str(uuid.uuid4())]. *)
Definition generate_enhanced_pptx (file_id : str) (topic : str)
    (sections : list section) (student_info : student) (fs : FS)
  : result str * FS :=
  let filename := lit "seminar_" ++ file_id ++ lit ".pptx" in
  let file_path := path_join STATIC_PATH filename in
  let prs := build_presentation topic sections student_info in
  let '(saved, fs) := save_pptx prs file_path fs in
  let body :=
    _ ← saved;
    if negb (path_exists fs file_path)
    then Raise (Exception (lit "PPTX file was not created at " ++ file_path))
    else Ok filename in
  match body with
  | Ok filename => (Ok filename, fs)
  | Raise e =>
      (Raise (Exception (lit "Failed to create enhanced PPTX: " ++ str_of_exn e)),
       fs)
  end.

(** ** Report (lines 350-415) *)

Inductive block :=
| Heading (text : str) (level : nat)
| Paragraph (text : str) (style : option str)
| PageBreak.

(** Lines 371-372 and 378-389, [i] counting from 1. *)
Fixpoint toc_from (i : nat) (sections : list section) (doc : list block)
  : list block :=
  match sections with
  | [] => doc
  | s :: rest =>
      toc_from (S i) rest
        (doc ++ [Paragraph (str_of_nat i ++ lit ". " ++ title s) None])
  end.

Definition section_blocks (i : nat) (s : section) : list block :=
  let doc := [Heading (str_of_nat i ++ lit ". " ++ title s) 1] in
  let doc :=
    fold_left (fun doc point => doc ++ [Paragraph (BULLET :: SPACE :: point) None])
      (points s) doc in
  let doc :=
    match sub_points s with
    | Some (sp :: subs) =>
        fold_left
          (fun doc sub_point =>
             doc ++ [Paragraph (lit "  " ++ WHITE_BULLET :: SPACE :: sub_point) None])
          (sp :: subs) (doc ++ [Paragraph (lit "Detailed Information:") None])
    | Some [] | None => doc
    end in
  doc ++ [Paragraph [] None].

Fixpoint sections_from (i : nat) (sections : list section) (doc : list block)
  : list block :=
  match sections with
  | [] => doc
  | s :: rest => sections_from (S i) rest (doc ++ section_blocks i s)
  end.

Fixpoint qna_from (i : nat) (qna : list qa) (doc : list block) : list block :=
  match qna with
  | [] => doc
  | p :: rest =>
      qna_from (S i) rest
        (doc ++
         [ Paragraph (lit "Q" ++ str_of_nat i ++ lit ": " ++ question p)
             (Some (lit "Heading 3"));
           Paragraph (lit "Answer: " ++ answer p) None;
           Paragraph [] None ])
  end.

(** The body of [doc] when line 402 is reached. *)
Definition build_document (topic : str) (sections : list section)
    (student_info : student) (qna : list qa) : list block :=
  let doc :=
    [ Heading (upper topic) 0;
      Paragraph (lit "Seminar Report") None;
      Paragraph [] None;
      Paragraph (lit "Submitted by: " ++ name student_info) None;
      Paragraph (lit "Roll Number: " ++ roll student_info) None;
      Paragraph (lit "College: " ++ college student_info) None;
      Paragraph (lit "Semester: " ++ semester student_info) None;
      Paragraph (lit "Branch: " ++ branch student_info) None;
      PageBreak;
      Heading (lit "TABLE OF CONTENTS") 1 ] in
  let doc := toc_from 1 sections doc in
  let doc := doc ++
    [ Paragraph (str_of_nat (length sections + 1) ++ lit ". Questions & Answers") None;
      Paragraph (str_of_nat (length sections + 2) ++ lit ". Conclusion") None;
      PageBreak ] in
  let doc := sections_from 1 sections doc in
  let doc := doc ++
    [ Heading (str_of_nat (length sections + 1) ++ lit ". Questions & Answers") 1 ] in
  let doc := qna_from 1 qna doc in
  doc ++
    [ Heading (str_of_nat (length sections + 2) ++ lit ". Conclusion") 1;
      Paragraph
        (lit "This seminar on " ++ topic ++
         lit " has provided comprehensive insights into the subject matter. The discussion covered various aspects including technical details, applications, and future scope. The research and analysis presented demonstrate the significance of "
         ++ topic ++ lit " in current technological advancements.") None ].

(** [doc.save(file_path)] *)
Variable save_docx : list block -> str -> FS -> result unit * FS.

Definition generate_docx (file_id : str) (topic : str)
    (sections : list section) (student_info : student) (qna : list qa)
    (fs : FS) : result str * FS :=
  let filename := lit "seminar_" ++ file_id ++ lit ".docx" in
  let file_path := path_join STATIC_PATH filename in
  let doc := build_document topic sections student_info qna in
  let '(saved, fs) := save_docx doc file_path fs in
  let body :=
    _ ← saved;
    if negb (path_exists fs file_path)
    then Raise (Exception (lit "DOCX file was not created at " ++ file_path))
    else
      file_size ← getsize fs file_path;
      Ok filename in
  match body with
  | Ok filename => (Ok filename, fs)
  | Raise e =>
      (Raise (Exception (lit "Failed to create enhanced DOCX: " ++ str_of_exn e)),
       fs)
  end.

(** ** download_file (lines 541-572) *)

Record file_response := {
  path : str;
  filename : str;
  media_type : str;
  content_disposition : str
}.

Definition download_file (filename : str) (fs : FS) : result file_response :=
  let file_path := path_join STATIC_PATH filename in
  if negb (path_exists fs file_path)
  then Raise (HTTPException 404 (lit "File not found"))
  else
    file_size ← getsize fs file_path;
    if (file_size =? 0)%nat
    then Raise (HTTPException 500 (lit "Generated file is empty"))
    else
      let media_type :=
        if endswith filename (lit ".docx")
        then lit "application/vnd.openxmlformats-officedocument.wordprocessingml.document"
        else if endswith filename (lit ".pptx")
        then lit "application/vnd.openxmlformats-officedocument.presentationml.presentation"
        else if endswith filename (lit ".txt")
        then lit "text/plain"
        else lit "application/octet-stream" in
      Ok {| path := file_path; filename := filename;
            media_type := media_type;
            content_disposition := lit "attachment; filename=" ++ filename |}.

End Renderers.

(** ** generate_kit (lines 418-536) *)

(** The request body, [SeminarKitRequest] (lines 31-37). *)
Module SeminarKitRequest.
Record t := {
  topic : str;
  name : str;
  roll : str;
  college : str;
  semester : str;
  branch : str
}.
End SeminarKitRequest.

(** The ["details"] dict of the response. *)
Record kit_details := {
  sections_generated : nat;
  questions_generated : nat;
  presentation_slides : nat
}.

(** The dict returned by [generate_kit]. *)
Record kit_response := {
  success : bool;
  message : str;
  pptx_url : str;
  docx_url : str;
  qna_url : str;
  details : kit_details
}.

(** Lines 516-519: the arguments of the three [f.write] calls of each
    pair, [i] being the number of the first pair of [qna_pairs]. *)
Fixpoint qna_writes_from (i : nat) (qna_pairs : list qa) : list str :=
  match qna_pairs with
  | [] => []
  | qa :: rest =>
      [ lit "QUESTION " ++ str_of_nat i ++ lit ":" ++ NL :: question qa ++ [NL; NL];
        lit "ANSWER " ++ str_of_nat i ++ lit ":" ++ NL :: answer qa ++ [NL];
        repeat MINUS 60 ++ [NL; NL] ]
      ++ qna_writes_from (S i) rest
  end.

(** Lines 509-519: the arguments of the successive [f.write] calls. *)
Definition qna_file_writes (topic : str) (student_info : student)
    (qna_pairs : list qa) : list str :=
  [ lit "COMPREHENSIVE QUESTIONS & ANSWERS" ++ [NL];
    lit "Topic: " ++ topic ++ [NL];
    lit "Prepared for: " ++ name student_info ++ lit " ("
      ++ roll student_info ++ lit ")" ++ [NL];
    lit "College: " ++ college student_info ++ [NL];
    lit "Semester: " ++ semester student_info ++ lit " | Branch: "
      ++ branch student_info ++ [NL];
    repeat 61 80 ++ [NL; NL] ]
  ++ qna_writes_from 1 qna_pairs.

(** The steps of the text file of lines 508-519 that reach the operating
    system: [open(file_path, "w", encoding="utf-8")], the output of one
    [f.write], and the closing of the file when the [with] block is left. *)
Inductive io_op :=
| OpenW (file_path : str)
| Write (file_path : str) (bytes : list N)
| Close (file_path : str).

Section Endpoint.

(** [openai.chat.completions.create], as for [gpt_generate] *)
Variable create : str -> nat -> result (list (option str)).
Variable upper : str -> str.
Variable STATIC_PATH : str.
Variable save_pptx : list slide -> str -> FS -> result unit * FS.
Variable save_docx : list block -> str -> FS -> result unit * FS.
(** The UTF-8 codec of the text file: the bytes of a text, or the
    exception it raises. *)
Variable encode : str -> result (list N).
(** [io_fails op fs]: the [OSError] the operating system answers the
    step [op] with on the file system [fs], and the file system it
    leaves; [None] when the step succeeds. *)
Variable io_fails : io_op -> FS -> option (exn * FS).

(** [f.write(text)] on the file opened at [file_path]: the text is
    encoded, and the bytes are appended unless the step fails. *)
Definition file_write (file_path : str) (fs : FS) (text : str)
  : result unit * FS :=
  match encode text with
  | Ok bytes =>
      match io_fails (Write file_path bytes) fs with
      | Some (e, fs) => (Raise e, fs)
      | None =>
          (Ok tt, alter (fun content => content ++ bytes) file_path fs)
      end
  | Raise e => (Raise e, fs)
  end.

(** The [f.write] calls in order, up to the first that raises. *)
Fixpoint write_all (file_path : str) (texts : list str) (fs : FS)
  : result unit * FS :=
  match texts with
  | [] => (Ok tt, fs)
  | text :: rest =>
      match file_write file_path fs text with
      | (Ok _, fs) => write_all file_path rest fs
      | (Raise e, fs) => (Raise e, fs)
      end
  end.

(** Lines 508-519: the [with open(...) as f] block.  Opening creates or
    empties the file; the file is closed when the block is left, also by
    an exception, and an exception of the closing is the one that
    propagates. *)
Definition write_text_file (file_path : str) (texts : list str) (fs : FS)
  : result unit * FS :=
  match io_fails (OpenW file_path) fs with
  | Some (e, fs) => (Raise e, fs)
  | None =>
      let '(written, fs) := write_all file_path texts (<[file_path := []]> fs) in
      match io_fails (Close file_path) fs with
      | Some (e, fs) => (Raise e, fs)
      | None => (written, fs)
      end
  end.

(** [ids] holds the values of the three [uuid.uuid4()] calls, in the
    order of the calls. *)
Definition generate_kit (ids : str * str * str) (body : SeminarKitRequest.t)
    (fs : FS) : result kit_response * FS :=
  let '(pptx_id, docx_id, qna_id) := ids in
  let failed (e : exn) : result kit_response :=
    Raise (HTTPException 500
             (lit "Failed to generate enhanced seminar kit: " ++ str_of_exn e)) in
  let student_info :=
    {| name := SeminarKitRequest.name body;
       roll := SeminarKitRequest.roll body;
       college := SeminarKitRequest.college body;
       semester := SeminarKitRequest.semester body;
       branch := SeminarKitRequest.branch body |} in
  let topic := SeminarKitRequest.topic body in
  let sections := generate_detailed_content (shipped_generate create) topic in
  let qna_text := gpt_generate create (qna_prompt topic) 1200 in
  let qna_pairs := kit_qna_pairs topic qna_text in
  match generate_enhanced_pptx upper STATIC_PATH save_pptx pptx_id topic
          sections student_info fs with
  | (Raise e, fs) => (failed e, fs)
  | (Ok pptx_filename, fs) =>
  match generate_docx upper STATIC_PATH save_docx docx_id topic sections
          student_info qna_pairs fs with
  | (Raise e, fs) => (failed e, fs)
  | (Ok docx_filename, fs) =>
  let qna_filename := lit "qna_" ++ qna_id ++ lit ".txt" in
  let qna_file_path := path_join STATIC_PATH qna_filename in
  match write_text_file qna_file_path
          (qna_file_writes topic student_info qna_pairs) fs with
  | (Raise e, fs) => (failed e, fs)
  | (Ok _, fs) =>
      (Ok {| success := true;
             message := lit "Enhanced seminar kit generated successfully!";
             pptx_url := lit "http://localhost:8000/download/" ++ pptx_filename;
             docx_url := lit "http://localhost:8000/download/" ++ docx_filename;
             qna_url := lit "http://localhost:8000/download/" ++ qna_filename;
             details :=
               {| sections_generated := length sections;
                  questions_generated := length qna_pairs;
                  presentation_slides := length sections + 3 |} |},
       fs)
  end end end.

End Endpoint.

(** * Vocabulary of the statements and concrete inputs *)

(** [trimmed s]: [s] neither starts nor ends with whitespace. *)
Definition trimmed (s : str) : Prop :=
  (forall c, head s = Some c -> isspace c = false) /\
  (forall c, last s = Some c -> isspace c = false).

(** [occurs old s]: [old] is a substring of [s]. *)
Fixpoint occurs (old s : str) : bool :=
  match s with
  | [] => startswith [] old
  | _ :: s' => startswith s old || occurs old s'
  end.

(** [section_start raw s]: the line [raw] of the text is a section-start
    line and the title of [s] is the text after its first colon,
    stripped. *)
Definition section_start (raw : str) (s : section) : Prop :=
  startswith (strip raw) (lit "Section") = true /\
  exists before after,
    strip raw = before ++ COLON :: after /\
    contains COLON before = false /\
    title s = strip after.

Definition title_from (lines : list str) (s : section) : Prop :=
  trimmed (title s) /\ exists raw, raw ∈ lines /\ section_start raw s.

(** The loop invariant of the outline parser for a property [P] of
    sections: [P] holds of the flushed sections and of the open one. *)
Definition outline_inv (P : section -> Prop)
    (st : list section * option section) : Prop :=
  Forall P st.1 /\ forall s, st.2 = Some s -> P s.

(** [P] holds of the section opened by the line [raw]. *)
Definition opens_with (P : section -> Prop) (raw : str) : Prop :=
  forall before after,
    startswith (strip raw) (lit "Section") = true ->
    strip raw = before ++ COLON :: after ->
    contains COLON before = false ->
    P (new_section (strip after)).

(** Callees and texts used as concrete inputs. *)
Definition failing_generate : str -> nat -> result str :=
  fun _ _ => Raise (Exception (lit "Connection error.")).

Definition three_sections_text : str :=
  join_lines
    [ lit "Section 1: Introduction"; lit "- Brief overview";
      lit "Section 2: Background"; lit "- Origins";
      lit "Section 3: Applications"; lit "- Use cases" ].

Definition four_sections_text : str :=
  join_lines
    [ three_sections_text; lit "Section 4: Future Trends";
      BULLET :: lit " Emerging trends" ].

Definition four_sections_parsed : list section :=
  [ {| title := lit "Introduction"; points := [lit "Brief overview"];
       sub_points := Some [] |};
    {| title := lit "Background"; points := [lit "Origins"];
       sub_points := Some [] |};
    {| title := lit "Applications"; points := [lit "Use cases"];
       sub_points := Some [] |};
    {| title := lit "Future Trends"; points := [lit "Emerging trends"];
       sub_points := Some [] |} ].

Definition four_pairs_text : str :=
  join_lines
    [ lit "Q: What is it?"; lit "A: A method.";
      lit "Q: Why use it?"; lit "A: It is fast.";
      lit "Q: Where is it used?"; lit "A: In industry.";
      lit "Q: What are the limits?"; lit "A: Cost." ].

Definition five_pairs_text : str :=
  join_lines
    [ four_pairs_text; lit "Q: What is next?"; lit "A: More research.";
      lit "and more products." ].

Definition five_pairs_parsed : list qa :=
  [ {| question := lit "What is it?"; answer := lit "A method." |};
    {| question := lit "Why use it?"; answer := lit "It is fast." |};
    {| question := lit "Where is it used?"; answer := lit "In industry." |};
    {| question := lit "What are the limits?"; answer := lit "Cost." |};
    {| question := lit "What is next?";
       answer := lit "More research. and more products." |} ].

(** Collaborators used as concrete inputs. *)
Definition upper_ascii (s : str) : str :=
  map (fun c => if (97 <=? c) && (c <=? 122) then c - 32 else c) s.

Definition save_writing {D} (bytes : list N)
  : D -> str -> FS -> result unit * FS :=
  fun _ file_path fs => (Ok tt, <[file_path := bytes]> fs).

Definition save_nothing {D} : D -> str -> FS -> result unit * FS :=
  fun _ _ fs => (Ok tt, fs).

Definition a_student : student :=
  {| name := lit "Asha"; roll := lit "21"; college := lit "NIT";
     semester := lit "6"; branch := lit "CSE" |}.

(** [section_line raw]: the line opens a section (the test of line 244). *)
Definition section_line (raw : str) : bool :=
  startswith (strip raw) (lit "Section") && contains COLON (strip raw).

(** The title a section-start line gives: the text after its first
    colon, stripped. *)
Definition title_of_line (raw : str) : str :=
  match split1 COLON (strip raw) with
  | [_; after] => strip after
  | _ => []
  end.

(** The tests of lines 463 and 468. *)
Definition question_line (raw : str) : bool :=
  startswith (strip raw) (lit "Q:") || startswith (strip raw) (lit "Question").

Definition answer_line (raw : str) : bool :=
  startswith (strip raw) (lit "A:") || startswith (strip raw) (lit "Answer").

(** A pair has a question and an answer that are not empty. *)
Definition filled (p : qa) : Prop := question p <> [] /\ answer p <> [].

(** A point is not empty and has no whitespace at either end. *)
Definition clean_points (s : section) : Prop :=
  Forall (fun point => point <> [] /\ trimmed point) (points s).

(** The client did not deliver a text: it raised, returned no choice, or
    a first choice without content. *)
Definition client_failed (r : result (list (option str))) : bool :=
  match r with
  | Ok (Some _ :: _) => false
  | _ => true
  end.

(** The level of a built-in heading style of python-docx:
    [add_heading(text, level)] is [add_paragraph(text, style)] with the
    style [Title] for level 0 and [Heading n] for the levels 1 to 9. *)
Definition heading_style_level (style : str) : option nat :=
  if bool_decide (style = lit "Title") then Some 0%nat
  else if startswith style (lit "Heading ") then
    match drop 8 style with
    | [d] => if (49 <=? d) && (d <=? 57) then Some (N.to_nat (d - 48)) else None
    | _ => None
    end
  else None.

(** The heading a block is in the written document, if it is one: a
    block added by [add_heading], or a paragraph with a heading style. *)
Definition heading_of (b : block) : list (str * nat) :=
  match b with
  | Heading text level => [(text, level)]
  | Paragraph text (Some style) =>
      match heading_style_level style with
      | Some level => [(text, level)]
      | None => []
      end
  | _ => []
  end.

(** The texts of the headings of a document, with their levels. *)
Definition headings (doc : list block) : list (str * nat) :=
  flat_map heading_of doc.

(** [Qi: question] for the pairs numbered from [i] (line 394). *)
Fixpoint question_headings_from (i : nat) (qna : list qa) : list str :=
  match qna with
  | [] => []
  | p :: rest =>
      (lit "Q" ++ str_of_nat i ++ lit ": " ++ question p)
      :: question_headings_from (S i) rest
  end.

(** [i. title] for the sections numbered from [i]. *)
Fixpoint numbered_from (i : nat) (sections : list section) : list str :=
  match sections with
  | [] => []
  | s :: rest => (str_of_nat i ++ lit ". " ++ title s) :: numbered_from (S i) rest
  end.

(** The entries of the table of contents: the paragraphs between the
    TABLE OF CONTENTS heading and the next page break. *)
Fixpoint toc_entries_after (doc : list block) : list str :=
  match doc with
  | Paragraph text None :: rest => text :: toc_entries_after rest
  | _ => []
  end.

Fixpoint toc_entries (doc : list block) : list str :=
  match doc with
  | [] => []
  | Heading text 1 :: rest =>
      if bool_decide (text = lit "TABLE OF CONTENTS")
      then toc_entries_after rest
      else toc_entries rest
  | _ :: rest => toc_entries rest
  end.

(** Concrete clients and a concrete codec. *)
Definition create_raising : str -> nat -> result (list (option str)) :=
  fun _ _ => Raise (Exception (lit "Connection error.")).

Definition create_answering (text : str)
  : str -> nat -> result (list (option str)) :=
  fun _ _ => Ok [Some text].

Definition utf8_char (c : N) : result (list N) :=
  if c <? 128 then Ok [c]
  else if c <? 2048 then Ok [192 + c / 64; 128 + c mod 64]
  else if (55296 <=? c) && (c <=? 57343)
  then Raise (Exception (lit "surrogates not allowed"))
  else if c <? 65536
  then Ok [224 + c / 4096; 128 + (c / 64) mod 64; 128 + c mod 64]
  else Ok [240 + c / 262144; 128 + (c / 4096) mod 64;
           128 + (c / 64) mod 64; 128 + c mod 64].

Fixpoint utf8 (s : str) : result (list N) :=
  match s with
  | [] => Ok []
  | c :: rest => b ← utf8_char c; bs ← utf8 rest; Ok (b ++ bs)
  end.

(** [io_on file_path op]: the step [op] is made on the file at
    [file_path]. *)
Definition io_on (file_path : str) (op : io_op) : Prop :=
  op = OpenW file_path \/ (exists bytes, op = Write file_path bytes)
  \/ op = Close file_path.

(** An operating system on which no step fails, and one on which the
    transcript cannot be opened. *)
Definition io_never_fails : io_op -> FS -> option (exn * FS) :=
  fun _ _ => None.

Definition io_open_denied : io_op -> FS -> option (exn * FS) :=
  fun op fs =>
    match op with
    | OpenW _ => Some (OSError (lit "[Errno 13] Permission denied"), fs)
    | _ => None
    end.

Definition a_request : SeminarKitRequest.t :=
  {| SeminarKitRequest.topic := lit "AI";
     SeminarKitRequest.name := lit "Asha";
     SeminarKitRequest.roll := lit "21";
     SeminarKitRequest.college := lit "NIT";
     SeminarKitRequest.semester := lit "6";
     SeminarKitRequest.branch := lit "CSE" |}.

(** The [student_info] dict [generate_kit] builds from the request. *)
Definition student_of_request (body : SeminarKitRequest.t) : student :=
  {| name := SeminarKitRequest.name body;
     roll := SeminarKitRequest.roll body;
     college := SeminarKitRequest.college body;
     semester := SeminarKitRequest.semester body;
     branch := SeminarKitRequest.branch body |}.

(** A section whose title and points hold no line feed; a pair whose
    question and answer hold none. *)
Definition one_line_section (s : section) : Prop :=
  (NL ∉ title s) /\ Forall (fun point => NL ∉ point) (points s).

Definition one_line_pair (p : qa) : Prop :=
  (NL ∉ question p) /\ (NL ∉ answer p).

(** The loop invariants of the Q&A parser used below. *)
Definition qna_inv (st : list qa * str * str) : Prop :=
  Forall (fun p => filled p /\ trimmed (question p) /\ trimmed (answer p))
    st.1.1 /\
  trimmed st.1.2 /\ trimmed st.2.

(** The pairs counted with the open question, and with the open answer. *)
Definition questions_seen (st : list qa * str * str) : nat :=
  length st.1.1 + (if truthy st.1.2 then 1 else 0).

Definition answers_seen (st : list qa * str * str) : nat :=
  length st.1.1 + (if truthy st.2 then 1 else 0).

Definition qna_one_line (st : list qa * str * str) : Prop :=
  Forall one_line_pair st.1.1 /\ (NL ∉ st.1.2) /\ (NL ∉ st.2).

(** * Properties *)


(** ** Strings *)

Example strip_ex : strip (lit "  Q: a b  ") = lit "Q: a b".
Proof. reflexivity. Qed.
Example split_ex : split NL (lit "a" ++ NL :: lit "b" ++ [NL]) = [lit "a"; lit "b"; []].
Proof. reflexivity. Qed.
Example split1_ex : split1 COLON (lit "Section 1: A: b") = [lit "Section 1"; lit " A: b"].
Proof. reflexivity. Qed.
Example replace_ex : replace (lit "Q:") [] (lit "Q: FAQ: x") = lit " FA x".
Proof. reflexivity. Qed.
Example replace_ex2 : replace (lit "aa") (lit "b") (lit "aaaaa") = lit "bba".
Proof. reflexivity. Qed.
Example str_of_nat_ex : str_of_nat 12 = lit "12".
Proof. reflexivity. Qed.

Lemma lstrip_by_head p s c :
  head (lstrip_by p s) = Some c -> p c = false.
Proof.
  induction s as [|a s IH]; simpl; [discriminate|].
  destruct (p a) eqn:E; [exact IH|].
  simpl. intros [= <-]. exact E.
Qed.

Lemma rstrip_by_cons p c s :
  rstrip_by p (c :: s) = [] \/ exists r, rstrip_by p (c :: s) = c :: r.
Proof.
  simpl. destruct (rstrip_by p s) as [|a r].
  - destruct (p c); [left|right; exists []]; reflexivity.
  - right. eexists. reflexivity.
Qed.

Lemma rstrip_by_head p s c :
  head (rstrip_by p s) = Some c -> head s = Some c.
Proof.
  destruct s as [|a s]; [discriminate|].
  destruct (rstrip_by_cons p a s) as [-> | [r ->]]; [discriminate|].
  auto.
Qed.

Lemma rstrip_by_last p s c :
  last (rstrip_by p s) = Some c -> p c = false.
Proof.
  induction s as [|a s IH]; simpl; [discriminate|].
  destruct (rstrip_by p s) as [|b r] eqn:E.
  - destruct (p a) eqn:Ea; simpl; [discriminate|].
    intros [= <-]. exact Ea.
  - change (last (a :: b :: r)) with (last (b :: r)). exact IH.
Qed.

Lemma strip_trimmed s : trimmed (strip s).
Proof.
  split; intros c H.
  - apply rstrip_by_head in H. eapply lstrip_by_head, H.
  - eapply rstrip_by_last, H.
Qed.

(** A string that starts with a non-blank character keeps it when
    stripped. *)
Lemma strip_cons c s :
  isspace c = false -> exists r, strip (c :: s) = c :: r.
Proof.
  intros Hc. unfold strip. simpl. rewrite Hc.
  destruct (rstrip_by_cons isspace c s) as [E | [r E]]; [|eauto].
  simpl in E. destruct (rstrip_by isspace s); [|discriminate].
  rewrite Hc in E. discriminate.
Qed.

Lemma rstrip_by_cons2 p c d s :
  p d = false -> exists r, rstrip_by p (c :: d :: s) = c :: d :: r.
Proof.
  intros Hd.
  assert (exists r, rstrip_by p (d :: s) = d :: r) as [r E].
  { destruct (rstrip_by_cons p d s) as [E | [r E]]; [|eauto].
    simpl in E. destruct (rstrip_by p s); [|discriminate].
    rewrite Hd in E. discriminate. }
  exists r. change (rstrip_by p (c :: d :: s))
    with (match rstrip_by p (d :: s) with
          | [] => if p c then [] else [c]
          | r => c :: r
          end).
  rewrite E. reflexivity.
Qed.

(** [s.split(sep, 1)] cuts at the first separator. *)
Lemma split1_spec sep s :
  contains sep s = true ->
  exists before after,
    split1 sep s = [before; after] /\ s = before ++ sep :: after /\
    contains sep before = false.
Proof.
  induction s as [|c s IH]; simpl; [discriminate|].
  rewrite (N.eqb_sym sep c).
  destruct (c =? sep) eqn:E.
  - intros _. apply N.eqb_eq in E. subst c. exists [], s. auto.
  - simpl. intros H. destruct (IH H) as (b & a & -> & -> & Hb).
    exists (c :: b), a. simpl. rewrite (N.eqb_sym sep c), E. auto.
Qed.

(** Without an occurrence of [old], [replace] changes nothing. *)
Lemma replace_from_absent old new s :
  occurs old s = false -> replace_from old new s O = s.
Proof.
  induction s as [|c s IH]; simpl; [reflexivity|].
  intros H. apply orb_false_iff in H as [H1 H2].
  cbn [startswith] in H1. rewrite H1. f_equal. auto.
Qed.

Lemma replace_absent old new s :
  occurs old s = false -> replace old new s = s.
Proof.
  destruct old as [|o old]; [destruct s; discriminate|].
  apply replace_from_absent.
Qed.

(** ** Outline parser *)

Section OutlineInvariant.

Variable P : section -> Prop.
Hypothesis P_append_point : forall point s, P s -> P (append_point point s).

Lemma outline_inv_flush st :
  outline_inv P st -> Forall P (flush_section st.1 st.2).
Proof.
  destruct st as [sections [s|]]; intros [H1 H2]; simpl in *; [|exact H1].
  apply Forall_app. split; [exact H1|]. constructor; auto.
Qed.

Lemma outline_inv_append sections cur point :
  outline_inv P (sections, cur) ->
  outline_inv P (sections, append_point point <$> cur).
Proof.
  intros [H1 H2]. split; [exact H1|].
  destruct cur as [c|]; simpl; intros s [= <-].
  apply P_append_point. auto.
Qed.

(** One iteration never raises and keeps the invariant. *)
Lemma outline_step_inv st raw :
  opens_with P raw -> outline_inv P st ->
  exists st', outline_step st raw = Ok st' /\ outline_inv P st'.
Proof.
  intros Hraw Hinv. destruct st as [sections cur]. unfold outline_step.
  destruct (negb (truthy (strip raw))); [eauto|].
  destruct (startswith (strip raw) (lit "Section")) eqn:Hs; simpl.
  - destruct (contains COLON (strip raw)) eqn:Hc; simpl.
    + destruct (split1_spec _ _ Hc) as (before & after & E & Hl & Hb).
      rewrite E. simpl. eexists. split; [reflexivity|].
      split; simpl.
      * exact (outline_inv_flush (sections, cur) Hinv).
      * intros s [= <-]. apply (Hraw before after); auto.
    + repeat match goal with
             | |- context [if ?b then _ else _] => destruct b
             end; eauto using outline_inv_append.
  - repeat match goal with
           | |- context [if ?b then _ else _] => destruct b
           end; eauto using outline_inv_append.
Qed.

Lemma for_each_outline_inv xs : forall st,
  (forall x, x ∈ xs -> opens_with P x) -> outline_inv P st ->
  exists st', for_each outline_step xs st = Ok st' /\ outline_inv P st'.
Proof.
  induction xs as [|x xs IH]; intros st Hsub Hinv; simpl; [eauto|].
  destruct (outline_step_inv st x) as (st1 & E & H1); auto.
  { apply Hsub. left. }
  rewrite E. simpl. apply IH; auto.
  intros y Hy. apply Hsub. right. exact Hy.
Qed.

(** The parser returns on every text, and [P] holds of every section it
    returns when it holds of each section a line of the text opens. *)
Lemma parse_outline_inv text :
  (forall raw, raw ∈ split NL text -> opens_with P raw) ->
  exists sections, parse_outline text = Ok sections /\ Forall P sections.
Proof.
  intros Hopen. unfold parse_outline.
  destruct (for_each_outline_inv (split NL text) ([], None))
    as (st & E & Hinv); auto.
  { split; simpl; [constructor | discriminate]. }
  rewrite E. simpl. eexists. split; [reflexivity|].
  apply outline_inv_flush, Hinv.
Qed.

End OutlineInvariant.

(** Every section the parser returns has its title from a section-start
    line. *)
Lemma parse_outline_total text :
  exists sections,
    parse_outline text = Ok sections /\
    Forall (title_from (split NL text)) sections.
Proof.
  apply parse_outline_inv; [auto|].
  intros raw Hraw before after Hs Hline Hbefore.
  split; [apply strip_trimmed|].
  exists raw. split; [exact Hraw|]. split; [exact Hs|].
  exists before, after. auto.
Qed.

(** Every section the parser returns has the key ['sub_points'], with
    the empty list. *)
Lemma parse_outline_sub_points text :
  exists sections,
    parse_outline text = Ok sections /\
    Forall (fun s => sub_points s = Some []) sections.
Proof.
  apply parse_outline_inv; [auto|].
  intros raw _ before after _ _ _. reflexivity.
Qed.

(** The sections of every text are parsed without an exception. *)
Lemma parse_outline_returns text :
  exists sections, parse_outline text = Ok sections.
Proof.
  destruct (parse_outline_total text) as (sections & E & _). eauto.
Qed.

(** With [gpt_generate] as the callee, the handler of lines 328-348 is
    never entered. *)
Lemma shipped_outline_try_returns create topic :
  exists sections, outline_try (shipped_generate create) topic = Ok sections.
Proof.
  unfold outline_try, shipped_generate. simpl.
  destruct (parse_outline_returns
              (gpt_generate create (structure_prompt topic) 1500%nat))
    as (sections & ->).
  simpl. eauto.
Qed.

(** C3 as stated fails: of the 24 points of the six-section template only
    one holds the topic; the five sections after the first are the same
    for every topic, and none of their points holds the topic. *)
Lemma fallback_points_mostly_constant :
  let topic := lit "AI" in
  length (List.filter (occurs topic)
            (concat (map points (fallback_sections topic)))) = 1%nat /\
  drop 1 (fallback_sections topic) = drop 1 (fallback_sections (lit "Robotics")) /\
  ~ (forall s point,
       s ∈ fallback_sections topic -> point ∈ points s ->
       occurs topic point = true).
Proof.
  split; [reflexivity|]. split; [reflexivity|].
  intros H.
  specialize (H {| title := lit "Literature Review and Background";
                   points :=
                     [ lit "Historical development and evolution";
                       lit "Key research contributions";
                       lit "Current state of technology";
                       lit "Gaps in existing knowledge" ];
                   sub_points := None |}
                (lit "Key research contributions")).
  assert (occurs (lit "AI") (lit "Key research contributions") = false)
    as Hno by reflexivity.
  rewrite H in Hno; [discriminate| |].
  - right. left.
  - right. left.
Qed.

(** C3, amended: when the text source returns a text, the outline stage
    returns the six-section template if fewer than 4 sections were
    parsed, and the parsed sections unchanged if 4 or more were.  The
    template has six sections with the six fixed titles, exactly four
    points each and no sub_points; its first point is [Definition and
    scope of] followed by the topic, and its 23 other points are fixed
    texts that do not depend on the topic. *)
Theorem sections_fallback_threshold generate topic text :
  generate (structure_prompt topic) 1500%nat = Ok text ->
  exists parsed,
    parse_outline text = Ok parsed /\
    ((length parsed < 4)%nat ->
     generate_detailed_content generate topic = fallback_sections topic) /\
    ((4 <= length parsed)%nat ->
     generate_detailed_content generate topic = parsed) /\
    length (fallback_sections topic) = 6%nat /\
    Forall (fun s => length (points s) = 4%nat /\ sub_points s = None)
      (fallback_sections topic) /\
    map title (fallback_sections topic) =
      [ lit "Introduction and Overview";
        lit "Literature Review and Background";
        lit "Core Concepts and Methodology";
        lit "Applications and Case Studies";
        lit "Challenges and Limitations";
        lit "Future Scope and Recommendations" ] /\
    (exists first_points other_sections,
       concat (map points (fallback_sections topic))
         = (lit "Definition and scope of " ++ topic)
           :: first_points ++ concat (map points other_sections) /\
       forall topic',
         fallback_sections topic'
           = {| title := lit "Introduction and Overview";
                points := (lit "Definition and scope of " ++ topic')
                          :: first_points;
                sub_points := None |}
             :: other_sections).
Proof.
  intros Hgen. destruct (parse_outline_returns text) as (parsed & Hp).
  exists parsed. split; [exact Hp|].
  unfold generate_detailed_content, outline_try.
  rewrite Hgen. simpl. rewrite Hp. simpl.
  split; [|split].
  - intros Hlt. apply Nat.ltb_lt in Hlt. rewrite Hlt. reflexivity.
  - intros Hge. apply Nat.ltb_ge in Hge. rewrite Hge. reflexivity.
  - split; [reflexivity|]. split.
    + repeat constructor.
    + split; [reflexivity|].
      exists (drop 1 (concat (map points (take 1 (fallback_sections []))))),
             (drop 1 (fallback_sections [])).
      split; [reflexivity|]. intros topic'. reflexivity.
Qed.

Lemma sections_fallback_threshold_witness :
  generate_detailed_content (fun _ _ => Ok three_sections_text) (lit "AI")
    = fallback_sections (lit "AI") /\
  generate_detailed_content (fun _ _ => Ok four_sections_text) (lit "AI")
    = four_sections_parsed.
Proof.
  split.
  - destruct (sections_fallback_threshold
                (fun _ _ => Ok three_sections_text) (lit "AI")
                three_sections_text eq_refl)
      as (parsed & Hp & Hlt & _).
    vm_compute in Hp. injection Hp as <-. apply Hlt. simpl. lia.
  - destruct (sections_fallback_threshold
                (fun _ _ => Ok four_sections_text) (lit "AI")
                four_sections_text eq_refl)
      as (parsed & Hp & _ & Hge & _).
    vm_compute in Hp. injection Hp as <-. apply Hge. simpl. lia.
Defined.

(** C6 as stated fails: a section-start line with nothing after its colon
    opens a section whose title is empty. *)
Lemma outline_empty_title :
  parse_outline (lit "Section 1:") =
    Ok [ {| title := []; points := []; sub_points := Some [] |} ] /\
  ~ (forall text sections s,
       parse_outline text = Ok sections -> s ∈ sections -> title s <> []).
Proof.
  split; [reflexivity|].
  intros H.
  apply (H (lit "Section 1:") _ (new_section []) eq_refl); [|reflexivity].
  left.
Qed.

(** C6, amended: on every text the outline parser returns, and every
    section it returns has a title with no whitespace at either end (it
    may be empty), which is the stripped text after the first colon of a
    line of the text that, stripped, starts with [Section]. *)
Theorem outline_titles_trimmed text :
  exists sections,
    parse_outline text = Ok sections /\
    Forall
      (fun s =>
         trimmed (title s) /\
         exists raw, raw ∈ split NL text /\
           startswith (strip raw) (lit "Section") = true /\
           exists before after,
             strip raw = before ++ COLON :: after /\
             contains COLON before = false /\
             title s = strip after)
      sections.
Proof. exact (parse_outline_total text). Qed.

(** C10: when the body of the [try] of the outline stage raises,
    generate_detailed_content returns (it does not raise) the template of
    lines 331-348: four sections titled Introduction, Technical Details,
    Applications and Future Scope, three points each, which is not the
    six-section template. *)
Theorem outline_exception_template generate topic e :
  outline_try generate topic = Raise e ->
  generate_detailed_content generate topic = error_sections topic /\
  map title (error_sections topic) =
    [ lit "Introduction"; lit "Technical Details"; lit "Applications";
      lit "Future Scope" ] /\
  Forall (fun s => length (points s) = 3%nat) (error_sections topic) /\
  length (error_sections topic) = 4%nat /\
  error_sections topic <> fallback_sections topic.
Proof.
  intros Hraise. unfold generate_detailed_content. rewrite Hraise.
  split; [reflexivity|]. split; [reflexivity|].
  split; [repeat constructor|]. split; [reflexivity|].
  intros E. apply (f_equal length) in E. discriminate E.
Qed.

Lemma outline_exception_template_witness :
  generate_detailed_content failing_generate (lit "AI")
    = error_sections (lit "AI").
Proof.
  apply (outline_exception_template failing_generate (lit "AI")
           (Exception (lit "Connection error."))).
  reflexivity.
Defined.

(** ** Q&A parser *)

(** C4 as stated fails: the second, fourth, seventh and eighth answers
    of the eight-pair template are the same for every topic and do not
    hold the topic. *)
Lemma fallback_answers_partly_constant :
  let topic := lit "AI" in
  map (fun p => occurs topic (answer p)) (fallback_qna topic)
    = [true; false; true; false; true; true; false; false] /\
  (answer <$> fallback_qna topic !! 1%nat)
    = (answer <$> fallback_qna (lit "Robotics") !! 1%nat) /\
  ~ (forall p, p ∈ fallback_qna topic ->
               occurs topic (question p) = true
               /\ occurs topic (answer p) = true).
Proof.
  split; [reflexivity|]. split; [reflexivity|].
  intros H.
  destruct (H {| question := lit "What are the key technical components of AI?";
                 answer := lit "The main technical components include core algorithms, implementation frameworks, and supporting infrastructure. These components work together to provide comprehensive functionality." |})
    as [_ Ha].
  - right. left.
  - vm_compute in Ha. discriminate Ha.
Qed.

(** C4, amended: the Q&A stage returns the eight-pair template of the
    topic when fewer than 5 pairs were parsed from the text, and the
    parsed pairs when 5 or more were.  In the template every question
    holds the topic; the first, third, fifth and sixth answers hold the
    topic, and the second, fourth, seventh and eighth answers are fixed
    texts that do not depend on the topic. *)
Theorem qna_fallback_threshold topic qna_text :
  ((length (parse_qna qna_text) < 5)%nat ->
   kit_qna_pairs topic qna_text = fallback_qna topic) /\
  ((5 <= length (parse_qna qna_text))%nat ->
   kit_qna_pairs topic qna_text = parse_qna qna_text) /\
  length (fallback_qna topic) = 8%nat /\
  Forall (fun p => exists before after, question p = before ++ topic ++ after)
    (fallback_qna topic) /\
  (forall i p,
     fallback_qna topic !! i = Some p ->
     (In i [0; 2; 4; 5]%nat ->
      exists before after, answer p = before ++ topic ++ after) /\
     (In i [1; 3; 6; 7]%nat ->
      forall topic' p',
        fallback_qna topic' !! i = Some p' -> answer p' = answer p)).
Proof.
  unfold kit_qna_pairs. split; [|split; [|split; [|split]]].
  - intros H. apply Nat.ltb_lt in H. rewrite H. reflexivity.
  - intros H. apply Nat.ltb_ge in H. rewrite H. reflexivity.
  - reflexivity.
  - unfold fallback_qna.
    repeat (apply List.Forall_cons;
            [cbn [question]; eexists _, _; reflexivity|]).
    apply List.Forall_nil.
  - intros i p Hi. unfold fallback_qna in Hi.
    do 8 (destruct i as [|i];
          [cbn [lookup list_lookup] in Hi; apply (inj Some) in Hi; subst p;
           split; intros Hin;
           [first [ solve [exfalso; simpl in Hin; intuition discriminate]
                  | lazymatch goal with
                    | |- exists before after,
                           answer {| question := _;
                                     answer := topic ++ ?a |} = _ =>
                        exists [], a; reflexivity
                    | |- exists before after,
                           answer {| question := _;
                                     answer := ?b ++ topic ++ ?a |} = _ =>
                        exists b, a; reflexivity
                    end ]
           |first [ solve [exfalso; simpl in Hin; intuition discriminate]
                  | intros topic' p' Hp'; unfold fallback_qna in Hp';
                    cbn [lookup list_lookup] in Hp';
                    apply (inj Some) in Hp'; subst p'; reflexivity ]]
          |]).
    discriminate Hi.
Qed.

Lemma qna_fallback_threshold_witness :
  kit_qna_pairs (lit "AI") four_pairs_text = fallback_qna (lit "AI") /\
  kit_qna_pairs (lit "AI") five_pairs_text = five_pairs_parsed.
Proof.
  split.
  - apply (qna_fallback_threshold (lit "AI") four_pairs_text).
    vm_compute. lia.
  - transitivity (parse_qna five_pairs_text); [|reflexivity].
    apply (qna_fallback_threshold (lit "AI") five_pairs_text).
    vm_compute. lia.
Defined.

(** C5 as stated fails: the markers are deleted wherever they occur in
    the line, and a line starting with [Question] without a colon right
    after it keeps that word. *)
Lemma question_markers_deleted_everywhere :
  let raw := lit "Q: Is the FAQ: page cached?" in
  startswith (strip raw) (lit "Q:") = true /\
  qna_step ([], [], []) raw = ([], lit "Is the FA page cached?", []) /\
  strip (drop 2 (strip raw)) = lit "Is the FAQ: page cached?" /\
  (qna_step ([], [], []) raw).1.2 <> strip (drop 2 (strip raw)) /\
  qna_step ([], [], []) (lit "Question 1: Why?")
    = ([], lit "Question 1: Why?", []).
Proof. repeat split. vm_compute. discriminate. Qed.

(** C5, amended: on a line that, stripped, starts with [Q:] or
    [Question], the previous pair is appended exactly when both slots are
    non-empty, the current answer becomes empty, and the current question
    becomes the stripped line with every occurrence of [Q:] and then every
    occurrence of [Question:] deleted, stripped again; when the line is
    [Q:] followed by a rest in which neither marker occurs, that is the
    stripped rest. *)
Theorem question_line_step qna_pairs current_q current_a raw :
  startswith (strip raw) (lit "Q:")
    || startswith (strip raw) (lit "Question") = true ->
  let line := strip raw in
  let flushed :=
    if truthy current_q && truthy current_a
    then qna_pairs ++ [{| question := current_q; answer := current_a |}]
    else qna_pairs in
  qna_step (qna_pairs, current_q, current_a) raw =
    (flushed,
     strip (replace (lit "Question:") [] (replace (lit "Q:") [] line)),
     []) /\
  (forall rest,
     line = lit "Q:" ++ rest ->
     occurs (lit "Q:") rest = false ->
     occurs (lit "Question:") rest = false ->
     qna_step (qna_pairs, current_q, current_a) raw
       = (flushed, strip rest, [])).
Proof.
  intros Hq line flushed.
  assert (qna_step (qna_pairs, current_q, current_a) raw =
            (flushed,
             strip (replace (lit "Question:") [] (replace (lit "Q:") [] line)),
             [])) as Hstep.
  { unfold qna_step. fold line. unfold line at 1 2. rewrite Hq. reflexivity. }
  split; [exact Hstep|].
  intros rest Hline Hno_q Hno_question. rewrite Hstep, Hline.
  assert (replace (lit "Q:") [] (lit "Q:" ++ rest) = rest) as ->.
  { change (replace (lit "Q:") [] (lit "Q:" ++ rest))
      with (replace_from (lit "Q:") [] rest O).
    apply replace_from_absent, Hno_q. }
  rewrite (replace_absent _ _ _ Hno_question). reflexivity.
Qed.

Lemma question_line_step_witness :
  qna_step ([], lit "What is it?", lit "A method.") (lit "  Q: Why use it?  ")
    = ([{| question := lit "What is it?"; answer := lit "A method." |}],
       lit "Why use it?", []).
Proof.
  destruct (question_line_step [] (lit "What is it?") (lit "A method.")
              (lit "  Q: Why use it?  ") eq_refl) as [_ H].
  apply (H (lit " Why use it?")); reflexivity.
Defined.

(** C7: a question line met while the current answer is empty appends no
    pair and replaces the current question; on the three lines
    [Q: first], [Q: second], [A: only answer] the parser returns the
    single pair (second, only answer). *)
Theorem orphaned_question_discarded :
  (forall qna_pairs current_q raw,
     startswith (strip raw) (lit "Q:")
       || startswith (strip raw) (lit "Question") = true ->
     exists q, qna_step (qna_pairs, current_q, []) raw = (qna_pairs, q, [])) /\
  parse_qna (join_lines [lit "Q: first"; lit "Q: second"; lit "A: only answer"])
    = [ {| question := lit "second"; answer := lit "only answer" |} ].
Proof.
  split; [|reflexivity].
  intros qna_pairs current_q raw Hq. unfold qna_step. rewrite Hq.
  rewrite andb_false_r. eauto.
Qed.

Lemma orphaned_question_discarded_witness :
  exists q, qna_step ([], lit "first", []) (lit "Q: second") = ([], q, []).
Proof.
  apply (proj1 orphaned_question_discarded [] (lit "first") (lit "Q: second")).
  reflexivity.
Defined.

(** ** Slide renderer *)

Lemma fold_left_snoc {A B} (f : A -> B) xs : forall acc,
  fold_left (fun acc x => acc ++ [f x]) xs acc = acc ++ map f xs.
Proof.
  induction xs as [|x xs IH]; intros acc; simpl.
  - symmetry. apply app_nil_r.
  - rewrite IH, <- app_assoc. reflexivity.
Qed.

Lemma fold_left_text {A} (f : A -> str) xs : forall acc,
  fold_left (fun text x => text ++ f x) xs acc = acc ++ concat (map f xs).
Proof.
  induction xs as [|x xs IH]; intros acc; simpl.
  - symmetry. apply app_nil_r.
  - rewrite IH, <- app_assoc. reflexivity.
Qed.

(** The body of a content slide: one bulleted line per point, then the
    Key Details header and one nested line per sub-point whenever the key
    ['sub_points'] is present. *)
Lemma content_text_eq s :
  content_text s =
    concat (map (fun point => BULLET :: SPACE :: point ++ [NL]) (points s))
    ++ match sub_points s with
       | Some subs =>
           NL :: lit "Key Details:" ++ [NL]
           ++ concat (map (fun sub_point =>
                             lit "  " ++ WHITE_BULLET :: SPACE :: sub_point ++ [NL])
                          subs)
       | None => []
       end.
Proof.
  unfold content_text. rewrite (fold_left_text _ (points s) []). simpl.
  destruct (sub_points s) as [subs|]; [|symmetry; apply app_nil_r].
  rewrite (fold_left_text
             (fun sub_point => lit "  " ++ WHITE_BULLET :: SPACE :: sub_point ++ [NL])).
  rewrite <- app_assoc. reflexivity.
Qed.

(** C1 fails on the code: every section the outline parser returns has
    the key sub_points with an empty list, and the body of its content
    slide is its bulleted points followed by the Key Details header with
    nothing under it.  So for a text of four sections, which the outline
    stage keeps, the first content slide ends with that header, while the
    report body of the same section has no Detailed Information line. *)
Theorem key_details_on_empty_sub_points :
  (forall text, exists sections,
     parse_outline text = Ok sections /\
     Forall
       (fun s =>
          sub_points s = Some [] /\
          content_text s =
            concat (map (fun point => BULLET :: SPACE :: point ++ [NL])
                      (points s))
            ++ NL :: lit "Key Details:" ++ [NL])
       sections) /\
  generate_detailed_content (fun _ _ => Ok four_sections_text) (lit "AI")
    = four_sections_parsed /\
  slide_body <$>
    build_presentation upper_ascii (lit "AI") four_sections_parsed a_student
      !! 2%nat
    = Some (join_lines
              [BULLET :: lit " Brief overview"; []; lit "Key Details:"; []]) /\
  section_blocks 1 {| title := lit "Introduction";
                      points := [lit "Brief overview"];
                      sub_points := Some [] |} =
    [ Heading (lit "1. Introduction") 1;
      Paragraph (BULLET :: lit " Brief overview") None;
      Paragraph [] None ].
Proof.
  split; [|repeat split].
  intros text.
  destruct (parse_outline_sub_points text) as (sections & Hp & Hsub).
  exists sections. split; [exact Hp|].
  eapply Forall_impl; [exact Hsub|].
  intros s Hs. split; [exact Hs|].
  rewrite content_text_eq, Hs. reflexivity.
Qed.

(** C8: the deck has one title slide, one agenda slide, one content slide
    per section in order and one conclusion slide: [k + 3] slides for [k]
    sections. *)
Theorem slide_count upper topic sections student_info :
  length (build_presentation upper topic sections student_info)
    = (length sections + 3)%nat /\
  build_presentation upper topic sections student_info =
    {| layout := 0; slide_title := upper topic;
       slide_body := subtitle_text student_info |}
    :: {| layout := 1; slide_title := lit "PRESENTATION AGENDA";
          slide_body := agenda_text sections |}
    :: map (content_slide upper) sections
    ++ [{| layout := 1; slide_title := lit "CONCLUSION & FUTURE SCOPE";
           slide_body := conclusion_text topic |}].
Proof.
  assert (build_presentation upper topic sections student_info =
    {| layout := 0; slide_title := upper topic;
       slide_body := subtitle_text student_info |}
    :: {| layout := 1; slide_title := lit "PRESENTATION AGENDA";
          slide_body := agenda_text sections |}
    :: map (content_slide upper) sections
    ++ [{| layout := 1; slide_title := lit "CONCLUSION & FUTURE SCOPE";
           slide_body := conclusion_text topic |}]) as E.
  { unfold build_presentation. rewrite fold_left_snoc. reflexivity. }
  split; [|exact E].
  rewrite E. simpl. rewrite length_app, length_map. simpl. lia.
Qed.

(** ** Persisted artifacts *)

(** C2 as stated fails: when [save] leaves a file of length zero at the
    path, both renderers return its name. *)
Lemma render_returns_empty_artifact :
  let dir := lit "/srv/generated_files" in
  generate_enhanced_pptx upper_ascii dir (save_writing [])
      (lit "1f0e") (lit "AI") [] a_student ∅
    = (Ok (lit "seminar_1f0e.pptx"),
       {[ lit "/srv/generated_files/seminar_1f0e.pptx" := [] ]}) /\
  generate_docx upper_ascii dir (save_writing [])
      (lit "1f0e") (lit "AI") [] a_student [] ∅
    = (Ok (lit "seminar_1f0e.docx"),
       {[ lit "/srv/generated_files/seminar_1f0e.docx" := [] ]}) /\
  getsize {[ lit "/srv/generated_files/seminar_1f0e.pptx" := [] ]}
      (path_join dir (lit "seminar_1f0e.pptx")) = Ok 0%nat.
Proof. vm_compute. repeat split. Qed.

(** C2, amended: right after saving, each renderer checks that the file
    is present: a render that returns a name returns the generated name
    and that file exists in the resulting file system, and a render whose
    save returned without leaving the file raises the wrapped
    not-created error.  The length of the file is not checked. *)
Theorem render_verifies_presence upper STATIC_PATH save_pptx save_docx
    file_id topic sections student_info qna fs :
  let pptx := path_join STATIC_PATH (lit "seminar_" ++ file_id ++ lit ".pptx") in
  let docx := path_join STATIC_PATH (lit "seminar_" ++ file_id ++ lit ".docx") in
  (forall filename fs',
     generate_enhanced_pptx upper STATIC_PATH save_pptx file_id topic sections
       student_info fs = (Ok filename, fs') ->
     filename = lit "seminar_" ++ file_id ++ lit ".pptx" /\
     path_exists fs' pptx = true) /\
  (forall filename fs',
     generate_docx upper STATIC_PATH save_docx file_id topic sections
       student_info qna fs = (Ok filename, fs') ->
     filename = lit "seminar_" ++ file_id ++ lit ".docx" /\
     path_exists fs' docx = true) /\
  (forall fs',
     save_pptx (build_presentation upper topic sections student_info) pptx fs
       = (Ok tt, fs') ->
     path_exists fs' pptx = false ->
     generate_enhanced_pptx upper STATIC_PATH save_pptx file_id topic sections
       student_info fs
       = (Raise (Exception (lit "Failed to create enhanced PPTX: "
                            ++ lit "PPTX file was not created at " ++ pptx)),
          fs')) /\
  (forall fs',
     save_docx (build_document upper topic sections student_info qna) docx fs
       = (Ok tt, fs') ->
     path_exists fs' docx = false ->
     generate_docx upper STATIC_PATH save_docx file_id topic sections
       student_info qna fs
       = (Raise (Exception (lit "Failed to create enhanced DOCX: "
                            ++ lit "DOCX file was not created at " ++ docx)),
          fs')).
Proof.
  intros pptx docx. repeat split.
  - unfold generate_enhanced_pptx in H. fold pptx in H.
    destruct (save_pptx _ pptx fs) as [[[]|e] fs1]; simpl in H;
      [|discriminate].
    destruct (path_exists fs1 pptx); simpl in H; [|discriminate].
    injection H as <- _. reflexivity.
  - unfold generate_enhanced_pptx in H. fold pptx in H.
    destruct (save_pptx _ pptx fs) as [[[]|e] fs1]; simpl in H;
      [|discriminate].
    destruct (path_exists fs1 pptx) eqn:E; simpl in H; [|discriminate].
    injection H as _ <-. exact E.
  - unfold generate_docx in H. fold docx in H.
    destruct (save_docx _ docx fs) as [[[]|e] fs1]; simpl in H;
      [|discriminate].
    destruct (path_exists fs1 docx); simpl in H; [|discriminate].
    destruct (getsize fs1 docx); simpl in H; [|discriminate].
    injection H as <- _. reflexivity.
  - unfold generate_docx in H. fold docx in H.
    destruct (save_docx _ docx fs) as [[[]|e] fs1]; simpl in H;
      [|discriminate].
    destruct (path_exists fs1 docx) eqn:E; simpl in H; [|discriminate].
    destruct (getsize fs1 docx); simpl in H; [|discriminate].
    injection H as _ <-. exact E.
  - intros fs' Hsave Hmiss. unfold generate_enhanced_pptx. fold pptx.
    rewrite Hsave. simpl. rewrite Hmiss. reflexivity.
  - intros fs' Hsave Hmiss. unfold generate_docx. fold docx.
    rewrite Hsave. simpl. rewrite Hmiss. reflexivity.
Qed.

Lemma render_verifies_presence_witness :
  let dir := lit "/srv/generated_files" in
  path_exists {[ lit "/srv/generated_files/seminar_1f0e.pptx" := lit "PK" ]}
    (path_join dir (lit "seminar_1f0e.pptx")) = true /\
  generate_docx upper_ascii dir save_nothing
      (lit "1f0e") (lit "AI") [] a_student [] ∅
    = (Raise (Exception
                (lit "Failed to create enhanced DOCX: DOCX file was not created at /srv/generated_files/seminar_1f0e.docx")),
       ∅).
Proof.
  destruct (render_verifies_presence upper_ascii (lit "/srv/generated_files")
              (save_writing (lit "PK")) save_nothing
              (lit "1f0e") (lit "AI") [] a_student [] ∅)
    as (Hpptx & _ & _ & Hdocx).
  split.
  - apply (Hpptx (lit "seminar_1f0e.pptx")). vm_compute. reflexivity.
  - apply (Hdocx ∅); reflexivity.
Defined.

(** ** Artifact retrieval *)

(** C9: download_file answers 404 when no file is at the path and 500
    when the file there has length zero; it returns a response only for
    an existing file of non-zero length, and the response serves that
    path. *)
Theorem download_missing_or_empty STATIC_PATH filename fs :
  let file_path := path_join STATIC_PATH filename in
  (fs !! file_path = None ->
   download_file STATIC_PATH filename fs
     = Raise (HTTPException 404 (lit "File not found"))) /\
  (fs !! file_path = Some [] ->
   download_file STATIC_PATH filename fs
     = Raise (HTTPException 500 (lit "Generated file is empty"))) /\
  (forall response,
     download_file STATIC_PATH filename fs = Ok response ->
     path response = file_path /\
     exists content, fs !! file_path = Some content /\ content <> []).
Proof.
  intros file_path. unfold download_file, path_exists, getsize.
  fold file_path. repeat split.
  - intros ->. reflexivity.
  - intros ->. reflexivity.
  - destruct (fs !! file_path) as [[|b content]|]; simpl in H;
      try discriminate.
    injection H as <-. reflexivity.
  - destruct (fs !! file_path) as [[|b content]|]; simpl in H;
      try discriminate.
    eexists. split; [reflexivity|discriminate].
Qed.

Lemma download_missing_or_empty_witness :
  let dir := lit "/srv/generated_files" in
  download_file dir (lit "seminar_1f0e.pptx") ∅
    = Raise (HTTPException 404 (lit "File not found")) /\
  download_file dir (lit "seminar_1f0e.pptx")
      {[ lit "/srv/generated_files/seminar_1f0e.pptx" := [] ]}
    = Raise (HTTPException 500 (lit "Generated file is empty")) /\
  path_join dir (lit "qna_1f0e.txt") = lit "/srv/generated_files/qna_1f0e.txt".
Proof.
  split; [|split].
  - apply (download_missing_or_empty (lit "/srv/generated_files")
             (lit "seminar_1f0e.pptx") ∅).
    reflexivity.
  - apply (download_missing_or_empty (lit "/srv/generated_files")
             (lit "seminar_1f0e.pptx")
             {[ lit "/srv/generated_files/seminar_1f0e.pptx" := [] ]}).
    vm_compute. reflexivity.
  - destruct (download_missing_or_empty (lit "/srv/generated_files")
                (lit "qna_1f0e.txt")
                {[ lit "/srv/generated_files/qna_1f0e.txt" := lit "Q" ]})
      as (_ & _ & H).
    apply (H {| path := lit "/srv/generated_files/qna_1f0e.txt";
                filename := lit "qna_1f0e.txt";
                media_type := lit "text/plain";
                content_disposition := lit "attachment; filename=qna_1f0e.txt" |}).
    vm_compute. reflexivity.
Defined.

(** ** Text source *)

(** When the client fails, [gpt_generate] returns the diagnostic line made
    of the first 50 characters of the prompt. *)
Lemma gpt_generate_failed create prompt max_tokens :
  client_failed (create prompt max_tokens) = true ->
  gpt_generate create prompt max_tokens
    = lit "Error generating content for: " ++ take 50 prompt ++ lit "...".
Proof.
  unfold gpt_generate. intros H.
  destruct (create prompt max_tokens) as [[|[text|] choices]|e];
    try discriminate; reflexivity.
Qed.

(** X1: when the client fails on the outline prompt (it raises, returns
    no choice, or a choice without content), the outline stage returns
    the six-section template: the diagnostic line parses to no section. *)
Theorem client_failure_gives_fallback_sections create topic :
  client_failed (create (structure_prompt topic) 1500%nat) = true ->
  generate_detailed_content (shipped_generate create) topic
    = fallback_sections topic.
Proof.
  intros H. unfold generate_detailed_content, outline_try, shipped_generate.
  cbn [mbind result_bind]. rewrite (gpt_generate_failed _ _ _ H).
  unfold structure_prompt. rewrite take_app_le by (vm_compute; lia).
  reflexivity.
Qed.

Lemma client_failure_gives_fallback_sections_witness :
  generate_detailed_content (shipped_generate create_raising) (lit "AI")
    = fallback_sections (lit "AI").
Proof.
  apply (client_failure_gives_fallback_sections create_raising (lit "AI")).
  reflexivity.
Defined.

(** X2: when the client fails on the Q&A prompt, the Q&A stage returns
    the eight-pair template. *)
Theorem client_failure_gives_fallback_qna create topic :
  client_failed (create (qna_prompt topic) 1200%nat) = true ->
  kit_qna_pairs topic (gpt_generate create (qna_prompt topic) 1200)
    = fallback_qna topic.
Proof.
  intros H. rewrite (gpt_generate_failed _ _ _ H).
  unfold qna_prompt. rewrite take_app_le by (vm_compute; lia).
  reflexivity.
Qed.

Lemma client_failure_gives_fallback_qna_witness :
  kit_qna_pairs (lit "AI")
    (gpt_generate (fun _ _ => Ok [None]) (qna_prompt (lit "AI")) 1200)
    = fallback_qna (lit "AI").
Proof.
  apply (client_failure_gives_fallback_qna (fun _ _ => Ok [None]) (lit "AI")).
  reflexivity.
Defined.

(** ** Outline parser: titles and points *)

Lemma flush_section_titles_append sections cur point :
  map title (flush_section sections (append_point point <$> cur))
    = map title (flush_section sections cur).
Proof. destruct cur as [s|]; simpl; [|reflexivity]. rewrite !map_app. reflexivity. Qed.

(** One iteration adds the title of the line when the line opens a
    section, and leaves the titles as they are otherwise. *)
Lemma outline_step_titles st raw :
  exists st',
    outline_step st raw = Ok st' /\
    map title (flush_section st'.1 st'.2)
      = map title (flush_section st.1 st.2)
        ++ (if section_line raw then [title_of_line raw] else []).
Proof.
  destruct st as [sections cur].
  unfold outline_step, section_line, title_of_line.
  destruct (negb (truthy (strip raw))) eqn:Hblank.
  { destruct (strip raw); [|discriminate]. simpl.
    eexists. split; [reflexivity|]. symmetry. apply app_nil_r. }
  destruct (startswith (strip raw) (lit "Section")
            && contains COLON (strip raw)) eqn:Hstart.
  - apply andb_true_iff in Hstart as [_ Hc].
    destruct (split1_spec _ _ Hc) as (before & after & -> & _ & _).
    cbn [index lookup list_lookup mbind result_bind].
    eexists. split; [reflexivity|].
    cbn [fst snd flush_section]. rewrite map_app. reflexivity.
  - rewrite app_nil_r.
    repeat match goal with
           | |- context [if ?b then _ else _] => destruct b
           end;
      eexists; (split; [reflexivity|]);
      cbn [fst snd]; auto using flush_section_titles_append.
Qed.

Lemma for_each_outline_titles xs : forall st,
  exists st',
    for_each outline_step xs st = Ok st' /\
    map title (flush_section st'.1 st'.2)
      = map title (flush_section st.1 st.2)
        ++ map title_of_line (List.filter section_line xs).
Proof.
  induction xs as [|x xs IH]; intros st; simpl.
  - eexists. split; [reflexivity|]. symmetry. apply app_nil_r.
  - destruct (outline_step_titles st x) as (st1 & -> & E1).
    cbn [mbind result_bind].
    destruct (IH st1) as (st2 & -> & E2).
    eexists. split; [reflexivity|].
    rewrite E2, E1, <- app_assoc. f_equal.
    destruct (section_line x); reflexivity.
Qed.

(** X3: the titles of the parsed sections are, in the order of the
    lines, the stripped texts after the first colon of the lines that
    start with [Section] and hold a colon; so there are as many sections
    as such lines. *)
Theorem parse_outline_titles text :
  exists sections,
    parse_outline text = Ok sections /\
    map title sections
      = map title_of_line (List.filter section_line (split NL text)) /\
    length sections = length (List.filter section_line (split NL text)).
Proof.
  unfold parse_outline.
  destruct (for_each_outline_titles (split NL text) ([], None))
    as (st & -> & E).
  cbn [mbind result_bind]. eexists. split; [reflexivity|].
  simpl in E. split; [exact E|].
  rewrite <- (length_map title), E, length_map. reflexivity.
Qed.

Section OutlinePoints.

Variable P : section -> Prop.
Hypothesis P_new : forall section_title, P (new_section section_title).
Hypothesis P_point : forall point s,
  truthy point = true -> trimmed point -> P s -> P (append_point point s).

Lemma outline_inv_point sections cur chars line :
  truthy (strip (lstrip chars line)) = true ->
  outline_inv P (sections, cur) ->
  outline_inv P
    (sections, append_point (strip (lstrip chars line)) <$> cur).
Proof.
  intros Ht [H1 H2]. split; [exact H1|].
  destruct cur as [c|]; simpl; intros s [= <-].
  apply P_point; auto using strip_trimmed.
Qed.

Lemma outline_step_points st raw :
  outline_inv P st ->
  exists st', outline_step st raw = Ok st' /\ outline_inv P st'.
Proof.
  intros Hinv. destruct st as [sections cur]. unfold outline_step.
  destruct (negb (truthy (strip raw))); [eauto|].
  destruct (startswith (strip raw) (lit "Section")
            && contains COLON (strip raw)) eqn:Hstart.
  - apply andb_true_iff in Hstart as [_ Hc].
    destruct (split1_spec _ _ Hc) as (before & after & -> & _ & _).
    cbn [index lookup list_lookup mbind result_bind].
    eexists. split; [reflexivity|]. split; cbn [fst snd].
    + destruct Hinv as [H1 H2]. destruct cur as [c|]; simpl in *; [|exact H1].
      apply Forall_app. split; [exact H1|]. constructor; auto.
    + intros s [= <-]. apply P_new.
  - destruct (startswith (strip raw) [MINUS]
              && bool_decide (is_Some cur)).
    { destruct (truthy (strip (lstrip (lit "- ") (strip raw)))) eqn:Ht;
        eauto using outline_inv_point. }
    destruct (startswith (strip raw) [BULLET]
              && bool_decide (is_Some cur)); [|eauto].
    destruct (truthy (strip (lstrip [BULLET; SPACE] (strip raw)))) eqn:Ht;
      eauto using outline_inv_point.
Qed.

Lemma parse_outline_points_inv text :
  exists sections, parse_outline text = Ok sections /\ Forall P sections.
Proof.
  unfold parse_outline.
  assert (forall xs st, outline_inv P st ->
            exists st', for_each outline_step xs st = Ok st'
                        /\ outline_inv P st') as Hloop.
  { induction xs as [|x xs IH]; intros st Hinv; simpl; [eauto|].
    destruct (outline_step_points st x Hinv) as (st1 & -> & H1).
    cbn [mbind result_bind]. auto. }
  destruct (Hloop (split NL text) ([], None)) as (st & -> & [H1 H2]).
  { split; simpl; [constructor|discriminate]. }
  cbn [mbind result_bind]. eexists. split; [reflexivity|].
  destruct st as [sections [c|]]; simpl in *; [|exact H1].
  apply Forall_app. split; [exact H1|]. constructor; auto.
Qed.

End OutlinePoints.

(** X4: every point of every parsed section is non-empty and has no
    whitespace at either end. *)
Theorem parse_outline_clean_points text :
  exists sections,
    parse_outline text = Ok sections /\
    Forall
      (fun s => Forall (fun point => point <> [] /\ trimmed point) (points s))
      sections.
Proof.
  apply (parse_outline_points_inv clean_points).
  - intros t. constructor.
  - intros point s Ht Htrim Hs. unfold clean_points. simpl.
    apply Forall_app. split; [exact Hs|].
    constructor; [|constructor].
    split; [|exact Htrim]. destruct point; discriminate.
Qed.

(** ** Q&A parser: pairs *)

Lemma truthy_nonempty s : truthy s = true -> s <> [].
Proof. destruct s; [discriminate|]. intros _. discriminate. Qed.

(** A continuation keeps the answer free of whitespace at both ends. *)
Lemma trimmed_continuation a line :
  truthy a = true -> truthy line = true -> trimmed a -> trimmed line ->
  trimmed (a ++ lit " " ++ line).
Proof.
  intros Ha Hl [Hhead _] [_ Hlast]. split; intros c H.
  - destruct a as [|x a]; [discriminate|]. apply Hhead. exact H.
  - apply Hlast. destruct line as [|y line]; [discriminate|].
    rewrite !last_app in H. destruct (last (y :: line)) eqn:E; [exact H|].
    apply last_None in E. discriminate.
Qed.

Lemma qna_inv_flush qna_pairs current_q current_a :
  qna_inv (qna_pairs, current_q, current_a) ->
  Forall (fun p => filled p /\ trimmed (question p) /\ trimmed (answer p))
    (if truthy current_q && truthy current_a
     then qna_pairs ++ [{| question := current_q; answer := current_a |}]
     else qna_pairs).
Proof.
  intros (Hp & Hq & Ha). simpl in *.
  destruct (truthy current_q) eqn:Eq; [|exact Hp].
  destruct (truthy current_a) eqn:Ea; [|exact Hp].
  apply Forall_app. split; [exact Hp|]. constructor; [|constructor].
  repeat split; simpl; auto using truthy_nonempty; apply Hq || apply Ha.
Qed.

Lemma qna_step_inv st raw : qna_inv st -> qna_inv (qna_step st raw).
Proof.
  destruct st as [[qna_pairs current_q] current_a]. intros Hinv.
  unfold qna_step.
  destruct (startswith (strip raw) (lit "Q:")
            || startswith (strip raw) (lit "Question")).
  { split; [exact (qna_inv_flush _ _ _ Hinv)|].
    split; simpl; [apply strip_trimmed|]. split; discriminate. }
  destruct Hinv as (Hp & Hq & Ha). simpl in Hp, Hq, Ha.
  assert (qna_inv (qna_pairs, current_q, current_a)) as Hsame
    by (split; [exact Hp | split; [exact Hq | exact Ha]]).
  destruct (startswith (strip raw) (lit "A:")
            || startswith (strip raw) (lit "Answer")).
  { split; [exact Hp|]. split; [exact Hq|]. apply strip_trimmed. }
  destruct (truthy current_a) eqn:Ea; [|exact Hsame].
  destruct (truthy (strip raw)) eqn:El; [|exact Hsame].
  destruct (negb (startswith (strip raw) (lit "Q:"))); [|exact Hsame].
  split; [exact Hp|]. split; [exact Hq|].
  apply trimmed_continuation; auto using strip_trimmed.
Qed.

Lemma fold_qna_inv xs : forall st,
  qna_inv st -> qna_inv (fold_left qna_step xs st).
Proof.
  induction xs as [|x xs IH]; intros st H; simpl; auto using qna_step_inv.
Qed.

(** X5: every pair the Q&A parser returns has a non-empty question and a
    non-empty answer, neither starting nor ending with whitespace. *)
Theorem parse_qna_pairs_filled qna_text :
  Forall
    (fun p =>
       question p <> [] /\ answer p <> [] /\
       trimmed (question p) /\ trimmed (answer p))
    (parse_qna qna_text).
Proof.
  unfold parse_qna.
  pose proof (fold_qna_inv (split NL qna_text) ([], [], [])) as H.
  destruct (fold_left qna_step (split NL qna_text) ([], [], []))
    as [[qna_pairs current_q] current_a].
  eapply Forall_impl.
  - apply qna_inv_flush, H.
    repeat split; simpl; try constructor; discriminate.
  - intros p ([H1 H2] & H3 & H4). auto.
Qed.

Lemma truthy_app a b : truthy a = true -> truthy (a ++ b) = true.
Proof. destruct a; [discriminate|reflexivity]. Qed.

Lemma qna_step_seen st raw :
  (questions_seen (qna_step st raw)
     <= questions_seen st + (if question_line raw then 1 else 0))%nat /\
  (answers_seen (qna_step st raw)
     <= answers_seen st + (if answer_line raw then 1 else 0))%nat.
Proof.
  destruct st as [[qna_pairs current_q] current_a].
  unfold qna_step, question_line, answer_line, questions_seen, answers_seen.
  destruct (startswith (strip raw) (lit "Q:")
            || startswith (strip raw) (lit "Question")).
  { cbn [fst snd truthy].
    destruct (truthy current_q), (truthy current_a); cbn [andb];
      rewrite ?length_app; cbn [length];
      repeat match goal with
             | |- context [if ?b then _ else _] => destruct b
             end; lia. }
  destruct (startswith (strip raw) (lit "A:")
            || startswith (strip raw) (lit "Answer")).
  { cbn [fst snd].
    repeat match goal with
           | |- context [if ?b then _ else _] => destruct b
           end; lia. }
  destruct (truthy current_a) eqn:Ea.
  - cbn [andb].
    destruct (truthy (strip raw) && negb (startswith (strip raw) (lit "Q:")));
      cbn [fst snd]; rewrite ?(truthy_app _ _ Ea), ?Ea;
      destruct (truthy current_q); lia.
  - cbn [fst snd andb]. rewrite Ea. destruct (truthy current_q); lia.
Qed.

Lemma fold_qna_seen xs : forall st,
  (questions_seen (fold_left qna_step xs st)
     <= questions_seen st + length (List.filter question_line xs))%nat /\
  (answers_seen (fold_left qna_step xs st)
     <= answers_seen st + length (List.filter answer_line xs))%nat.
Proof.
  induction xs as [|x xs IH]; intros st; simpl; [lia|].
  destruct (IH (qna_step st x)) as [Hq Ha].
  destruct (qna_step_seen st x) as [Hq1 Ha1].
  destruct (question_line x), (answer_line x); simpl; lia.
Qed.

(** X6: the Q&A parser returns at most as many pairs as the text has
    question lines, and at most as many as it has answer lines. *)
Theorem parse_qna_length_bound qna_text :
  (length (parse_qna qna_text)
     <= length (List.filter question_line (split NL qna_text)))%nat /\
  (length (parse_qna qna_text)
     <= length (List.filter answer_line (split NL qna_text)))%nat.
Proof.
  unfold parse_qna.
  destruct (fold_qna_seen (split NL qna_text) ([], [], [])) as [Hq Ha].
  unfold questions_seen, answers_seen in Hq, Ha.
  destruct (fold_left qna_step (split NL qna_text) ([], [], []))
    as [[qna_pairs current_q] current_a].
  simpl in Hq, Ha.
  destruct (truthy current_q), (truthy current_a); simpl;
    rewrite ?length_app; simpl; lia.
Qed.

(** ** What the renderers receive *)

Lemma generate_detailed_content_shape generate topic :
  (4 <= length (generate_detailed_content generate topic))%nat /\
  Forall (fun s => sub_points s = None \/ sub_points s = Some [])
    (generate_detailed_content generate topic).
Proof.
  assert (forall t, Forall (fun s => sub_points s = None \/ sub_points s = Some [])
                      (fallback_sections t)) as Hfallback
    by (intros t; repeat constructor).
  unfold generate_detailed_content, outline_try.
  destruct (generate (structure_prompt topic) 1500%nat) as [text|e];
    cbn [mbind result_bind]; [|split; [simpl; lia|repeat constructor]].
  destruct (parse_outline_sub_points text) as (sections & -> & Hsub).
  cbn [mbind result_bind].
  destruct (length sections <? 4)%nat eqn:E.
  - split; [simpl; lia|apply Hfallback].
  - apply Nat.ltb_ge in E. split; [exact E|].
    eapply Forall_impl; [exact Hsub|]. auto.
Qed.

(** X7: whatever the text source does, the outline stage returns at least
    four sections, and none of them has a non-empty sub_points list: the
    key is absent (templates) or holds the empty list (parsed sections). *)
Theorem outline_stage_sections generate topic :
  (4 <= length (generate_detailed_content generate topic))%nat /\
  Forall (fun s => sub_points s = None \/ sub_points s = Some [])
    (generate_detailed_content generate topic).
Proof. exact (generate_detailed_content_shape generate topic). Qed.

Lemma kit_qna_pairs_shape topic qna_text :
  (5 <= length (kit_qna_pairs topic qna_text))%nat /\
  Forall (fun p => question p <> [] /\ answer p <> [])
    (kit_qna_pairs topic qna_text).
Proof.
  unfold kit_qna_pairs.
  destruct (length (parse_qna qna_text) <? 5)%nat eqn:E.
  - split; [simpl; lia|].
    unfold fallback_qna.
    repeat (apply List.Forall_cons;
            [cbn [question answer]; split;
             (discriminate ||
              (intros H; apply (f_equal length) in H;
               rewrite ?length_app in H; simpl in H; lia))|]).
    apply List.Forall_nil.
  - apply Nat.ltb_ge in E. split; [exact E|].
    eapply Forall_impl; [apply parse_qna_pairs_filled|].
    intros p (H1 & H2 & _). auto.
Qed.

(** X8: the Q&A stage returns at least five pairs, each with a non-empty
    question and a non-empty answer, whatever the text and the topic. *)
Theorem qna_stage_pairs topic qna_text :
  (5 <= length (kit_qna_pairs topic qna_text))%nat /\
  Forall (fun p => question p <> [] /\ answer p <> [])
    (kit_qna_pairs topic qna_text).
Proof. exact (kit_qna_pairs_shape topic qna_text). Qed.

(** ** Artifact paths *)

Lemma path_join_relative a b :
  startswith b [SLASH] = false ->
  exists sep, path_join a b = a ++ sep ++ b /\
              forall b', startswith b' [SLASH] = false ->
                         path_join a b' = a ++ sep ++ b'.
Proof.
  intros Hb. unfold path_join. rewrite Hb.
  destruct (negb (truthy a) || endswith a [SLASH]).
  - exists []. split; [reflexivity|]. intros b' ->. reflexivity.
  - exists [SLASH]. split; [reflexivity|]. intros b' ->. reflexivity.
Qed.

(** X9: within one output directory, artifacts of the same kind with
    different identifiers have different paths, and artifacts of
    different kinds never share a path. *)
Theorem artifact_paths_distinct STATIC_PATH id1 id2 :
  let pptx id := path_join STATIC_PATH (lit "seminar_" ++ id ++ lit ".pptx") in
  let docx id := path_join STATIC_PATH (lit "seminar_" ++ id ++ lit ".docx") in
  let qna id := path_join STATIC_PATH (lit "qna_" ++ id ++ lit ".txt") in
  (id1 <> id2 ->
   pptx id1 <> pptx id2 /\ docx id1 <> docx id2 /\ qna id1 <> qna id2) /\
  pptx id1 <> docx id2 /\ pptx id1 <> qna id2 /\ docx id1 <> qna id2.
Proof.
  intros pptx docx qna.
  destruct (path_join_relative STATIC_PATH (lit "seminar_" ++ id1 ++ lit ".pptx")
              eq_refl) as (sep & _ & Hsep).
  unfold pptx, docx, qna. rewrite !Hsep by reflexivity.
  assert (forall (suffix : str) a b, a ++ suffix = b ++ suffix -> a = b) as Htail
    by (intros suffix a b; apply app_inv_tail).
  split; [intros Hne|]; repeat split; intros H;
    repeat apply app_inv_head in H.
  - exact (Hne (Htail (lit ".pptx") _ _ H)).
  - exact (Hne (Htail (lit ".docx") _ _ H)).
  - exact (Hne (Htail (lit ".txt") _ _ H)).
  - apply (f_equal (@rev N)) in H.
    rewrite !rev_app_distr in H. simpl in H. discriminate H.
  - simpl in H. discriminate H.
  - simpl in H. discriminate H.
Qed.

Lemma artifact_paths_distinct_witness :
  path_join (lit "/srv/generated_files") (lit "seminar_1f0e.pptx")
    <> path_join (lit "/srv/generated_files") (lit "seminar_2a3b.pptx").
Proof.
  apply (artifact_paths_distinct (lit "/srv/generated_files")
           (lit "1f0e") (lit "2a3b")).
  vm_compute. discriminate.
Defined.

(** ** From rendering to retrieval *)

Lemma endswith_app s suffix : endswith (s ++ suffix) suffix = true.
Proof.
  unfold endswith. rewrite rev_app_distr.
  induction (rev suffix) as [|c l IH]; simpl; [reflexivity|].
  rewrite N.eqb_refl. exact IH.
Qed.

Lemma generate_enhanced_pptx_ok upper STATIC_PATH save_pptx file_id topic
    sections student_info fs name fs' :
  generate_enhanced_pptx upper STATIC_PATH save_pptx file_id topic sections
    student_info fs = (Ok name, fs') ->
  name = lit "seminar_" ++ file_id ++ lit ".pptx" /\
  is_Some (fs' !! path_join STATIC_PATH name).
Proof.
  unfold generate_enhanced_pptx, path_exists. intros H.
  destruct (save_pptx _ _ fs) as [[[]|e] fs1]; simpl in H; [|discriminate].
  case_bool_decide as E; simpl in H; [|discriminate].
  injection H as <- <-. auto.
Qed.

Lemma generate_docx_ok upper STATIC_PATH save_docx file_id topic sections
    student_info qna fs name fs' :
  generate_docx upper STATIC_PATH save_docx file_id topic sections
    student_info qna fs = (Ok name, fs') ->
  name = lit "seminar_" ++ file_id ++ lit ".docx" /\
  is_Some (fs' !! path_join STATIC_PATH name).
Proof.
  unfold generate_docx, path_exists, getsize. intros H.
  destruct (save_docx _ _ fs) as [[[]|e] fs1]; simpl in H; [|discriminate].
  case_bool_decide as E; simpl in H; [|discriminate].
  destruct E as [content E]. rewrite E in H. simpl in H.
  injection H as <- <-. rewrite E. eauto.
Qed.

Lemma download_file_existing STATIC_PATH name fs b content media :
  fs !! path_join STATIC_PATH name = Some (b :: content) ->
  (if endswith name (lit ".docx")
   then lit "application/vnd.openxmlformats-officedocument.wordprocessingml.document"
   else if endswith name (lit ".pptx")
   then lit "application/vnd.openxmlformats-officedocument.presentationml.presentation"
   else if endswith name (lit ".txt")
   then lit "text/plain"
   else lit "application/octet-stream") = media ->
  download_file STATIC_PATH name fs
    = Ok {| path := path_join STATIC_PATH name; filename := name;
            media_type := media;
            content_disposition := lit "attachment; filename=" ++ name |}.
Proof.
  intros Hc <-. unfold download_file, path_exists, getsize. rewrite Hc.
  rewrite bool_decide_eq_true_2 by eauto. reflexivity.
Qed.

Lemma download_file_empty STATIC_PATH name fs :
  fs !! path_join STATIC_PATH name = Some [] ->
  download_file STATIC_PATH name fs
    = Raise (HTTPException 500 (lit "Generated file is empty")).
Proof.
  intros Hc. unfold download_file, path_exists, getsize. rewrite Hc.
  rewrite bool_decide_eq_true_2 by eauto. reflexivity.
Qed.

(** X10: a file name returned by either renderer is never answered with
    404 on the file system the render left: download_file answers 500
    when the file is empty, and otherwise serves the file at its path
    under that name, as a presentation for the deck and as a
    word-processing document for the report. *)
Theorem rendered_artifact_download upper STATIC_PATH save_pptx save_docx
    file_id topic sections student_info qna fs name fs' :
  let outcome media :=
    download_file STATIC_PATH name fs'
      = Raise (HTTPException 500 (lit "Generated file is empty")) /\
      fs' !! path_join STATIC_PATH name = Some []
    \/
    download_file STATIC_PATH name fs'
      = Ok {| path := path_join STATIC_PATH name; filename := name;
              media_type := media;
              content_disposition := lit "attachment; filename=" ++ name |} in
  (generate_enhanced_pptx upper STATIC_PATH save_pptx file_id topic sections
     student_info fs = (Ok name, fs') ->
   outcome (lit "application/vnd.openxmlformats-officedocument.presentationml.presentation")) /\
  (generate_docx upper STATIC_PATH save_docx file_id topic sections
     student_info qna fs = (Ok name, fs') ->
   outcome (lit "application/vnd.openxmlformats-officedocument.wordprocessingml.document")).
Proof.
  intros outcome. unfold outcome. split; intros H.
  - destruct (generate_enhanced_pptx_ok _ _ _ _ _ _ _ _ _ _ H)
      as [-> [[|b content] Hc]].
    + left. auto using download_file_empty.
    + right. apply (download_file_existing _ _ _ _ _ _ Hc).
      unfold endswith. rewrite !rev_app_distr. reflexivity.
  - destruct (generate_docx_ok _ _ _ _ _ _ _ _ _ _ _ H)
      as [-> [[|b content] Hc]].
    + left. auto using download_file_empty.
    + right. apply (download_file_existing _ _ _ _ _ _ Hc).
      unfold endswith. rewrite !rev_app_distr. reflexivity.
Qed.

Lemma rendered_artifact_download_witness :
  download_file (lit "/srv/generated_files") (lit "seminar_1f0e.pptx")
    {[ lit "/srv/generated_files/seminar_1f0e.pptx" := lit "PK" ]}
    = Ok {| path := lit "/srv/generated_files/seminar_1f0e.pptx";
            filename := lit "seminar_1f0e.pptx";
            media_type := lit "application/vnd.openxmlformats-officedocument.presentationml.presentation";
            content_disposition := lit "attachment; filename=seminar_1f0e.pptx" |}.
Proof.
  destruct (rendered_artifact_download upper_ascii (lit "/srv/generated_files")
              (save_writing (lit "PK")) save_nothing
              (lit "1f0e") (lit "AI") [] a_student [] ∅
              (lit "seminar_1f0e.pptx")
              {[ lit "/srv/generated_files/seminar_1f0e.pptx" := lit "PK" ]})
    as [Hpptx _].
  destruct Hpptx as [[_ Hempty]|Hserved].
  - vm_compute. reflexivity.
  - vm_compute in Hempty. discriminate Hempty.
  - exact Hserved.
Defined.

(** ** Report *)

Lemma toc_from_eq sections : forall i doc,
  toc_from i sections doc
    = doc ++ map (fun text => Paragraph text None) (numbered_from i sections).
Proof.
  induction sections as [|s rest IH]; intros i doc; simpl.
  - symmetry. apply app_nil_r.
  - rewrite IH, <- app_assoc. reflexivity.
Qed.

Lemma headings_app doc1 doc2 :
  headings (doc1 ++ doc2) = headings doc1 ++ headings doc2.
Proof. unfold headings. rewrite !flat_map_concat_map, map_app, concat_app. reflexivity. Qed.

Lemma headings_paragraphs {A} (f : A -> str) xs :
  headings (map (fun x => Paragraph (f x) None) xs) = [].
Proof. induction xs as [|x xs IH]; simpl; auto. Qed.

(** The blocks of one section hold one heading, its numbered title. *)
Lemma headings_section_blocks i s :
  headings (section_blocks i s) = [(str_of_nat i ++ lit ". " ++ title s, 1%nat)].
Proof.
  unfold section_blocks.
  rewrite (fold_left_snoc (fun point => Paragraph (BULLET :: SPACE :: point) None)).
  destruct (sub_points s) as [[|sp subs]|];
    rewrite ?(fold_left_snoc
                (fun sub_point =>
                   Paragraph (lit "  " ++ WHITE_BULLET :: SPACE :: sub_point) None));
    rewrite !headings_app, ?headings_paragraphs; reflexivity.
Qed.

Lemma headings_sections_from sections : forall i doc,
  headings (sections_from i sections doc)
    = headings doc ++ map (fun text => (text, 1%nat)) (numbered_from i sections).
Proof.
  induction sections as [|s rest IH]; intros i doc; simpl.
  - symmetry. apply app_nil_r.
  - rewrite IH, headings_app, headings_section_blocks, <- app_assoc.
    reflexivity.
Qed.

(** Each pair adds one heading of level 3, its numbered question. *)
Lemma headings_qna_from qna : forall i doc,
  headings (qna_from i qna doc)
    = headings doc
      ++ map (fun text => (text, 3%nat)) (question_headings_from i qna).
Proof.
  induction qna as [|p rest IH]; intros i doc; simpl.
  - symmetry. apply app_nil_r.
  - rewrite IH, headings_app, <- app_assoc. reflexivity.
Qed.

Lemma filter_level_same (level : nat) texts :
  List.filter (fun h : str * nat => (snd h =? level)%nat)
    (map (fun text => (text, level)) texts)
    = map (fun text => (text, level)) texts.
Proof.
  induction texts as [|t texts IH]; simpl; [reflexivity|].
  rewrite Nat.eqb_refl, IH. reflexivity.
Qed.

Lemma filter_level_other (level other : nat) texts :
  other <> level ->
  List.filter (fun h : str * nat => (snd h =? level)%nat)
    (map (fun text => (text, other)) texts) = [].
Proof.
  intros Hne. induction texts as [|t texts IH]; simpl; [reflexivity|].
  apply Nat.eqb_neq in Hne. rewrite Hne. exact IH.
Qed.

Lemma toc_entries_after_paragraphs texts rest :
  toc_entries_after
    (map (fun text => Paragraph text None) texts ++ PageBreak :: rest) = texts.
Proof. induction texts as [|t texts IH]; simpl; [reflexivity|]. rewrite IH. reflexivity. Qed.

Lemma sections_from_app sections : forall i doc,
  sections_from i sections doc = doc ++ sections_from i sections [].
Proof.
  induction sections as [|s rest IH]; intros i doc; simpl.
  - symmetry. apply app_nil_r.
  - rewrite IH, (IH _ (section_blocks i s)), app_assoc. reflexivity.
Qed.

Lemma qna_from_app qna : forall i doc,
  qna_from i qna doc = doc ++ qna_from i qna [].
Proof.
  induction qna as [|p rest IH]; intros i doc; simpl.
  - symmetry. apply app_nil_r.
  - rewrite IH, (IH _ [_; _; _]), app_assoc. reflexivity.
Qed.

(** X11: the headings of the report are, in order: the upper-cased topic
    (level 0), TABLE OF CONTENTS, one level-1 heading per section
    numbered from 1, the Questions & Answers heading numbered k+1, one
    level-3 heading [Qi: question] per pair numbered from 1, and the
    Conclusion heading numbered k+2; the entries of the table of contents
    are exactly the texts of the level-1 headings that follow the TABLE
    OF CONTENTS heading, in the same order. *)
Theorem report_headings_match_contents upper topic sections student_info qna :
  let doc := build_document upper topic sections student_info qna in
  let questions_heading :=
    str_of_nat (length sections + 1) ++ lit ". Questions & Answers" in
  let conclusion_heading :=
    str_of_nat (length sections + 2) ++ lit ". Conclusion" in
  headings doc
    = (upper topic, 0%nat) :: (lit "TABLE OF CONTENTS", 1%nat)
      :: map (fun text => (text, 1%nat)) (numbered_from 1 sections)
      ++ (questions_heading, 1%nat)
      :: map (fun text => (text, 3%nat)) (question_headings_from 1 qna)
      ++ [(conclusion_heading, 1%nat)] /\
  toc_entries doc
    = numbered_from 1 sections ++ [questions_heading; conclusion_heading] /\
  toc_entries doc
    = map fst
        (List.filter (fun h : str * nat => (snd h =? 1)%nat)
           (drop 2 (headings doc))).
Proof.
  intros doc questions_heading conclusion_heading.
  assert (headings doc
    = (upper topic, 0%nat) :: (lit "TABLE OF CONTENTS", 1%nat)
      :: map (fun text => (text, 1%nat)) (numbered_from 1 sections)
      ++ (questions_heading, 1%nat)
      :: map (fun text => (text, 3%nat)) (question_headings_from 1 qna)
      ++ [(conclusion_heading, 1%nat)]) as Hheadings.
  { unfold doc, build_document.
    rewrite !headings_app, headings_qna_from, !headings_app,
      headings_sections_from, !headings_app, toc_from_eq, headings_app,
      headings_paragraphs.
    simpl. rewrite <- !app_assoc. reflexivity. }
  assert (toc_entries doc
    = numbered_from 1 sections ++ [questions_heading; conclusion_heading])
    as Htoc.
  { unfold doc, build_document.
    rewrite toc_from_eq, (qna_from_app qna), (sections_from_app sections).
    rewrite <- !app_assoc. cbn [app toc_entries].
    rewrite bool_decide_eq_true_2 by reflexivity.
    change (?x :: ?y :: PageBreak :: ?rest)
      with (map (fun text => Paragraph text None)
              [questions_heading; conclusion_heading]
            ++ PageBreak :: rest).
    rewrite app_assoc, <- map_app.
    apply toc_entries_after_paragraphs. }
  split; [exact Hheadings|]. split; [exact Htoc|].
  rewrite Htoc, Hheadings.
  change (drop 2 (?a :: ?b :: ?l)) with (drop 0 l). rewrite drop_0.
  rewrite List.filter_app. cbn [List.filter snd Nat.eqb].
  rewrite List.filter_app, filter_level_same,
    (filter_level_other 1 3) by discriminate.
  cbn [List.filter snd Nat.eqb app].
  rewrite map_app, map_map. cbn [map fst].
  rewrite map_id. reflexivity.
Qed.

(** ** generate_kit *)

Lemma utf8_nonempty text bytes :
  utf8 text = Ok bytes -> text <> [] -> bytes <> [].
Proof.
  destruct text as [|c rest]; [congruence|]. intros H _. simpl in H.
  assert (forall b, utf8_char c = Ok b -> b <> []) as Hc.
  { unfold utf8_char. intros b Hb.
    repeat match type of Hb with
           | (if ?x then _ else _) = _ => destruct x
           end; inversion Hb; discriminate. }
  destruct (utf8_char c) as [b|e]; [|discriminate].
  specialize (Hc b eq_refl). simpl in H.
  destruct (utf8 rest) as [bs|e]; [|discriminate].
  injection H as <-. destruct b; [congruence|discriminate].
Qed.

Section EndpointProperties.

Variable create : str -> nat -> result (list (option str)).
Variable upper : str -> str.
Variable STATIC_PATH : str.
Variable save_pptx : list slide -> str -> FS -> result unit * FS.
Variable save_docx : list block -> str -> FS -> result unit * FS.
Variable encode : str -> result (list N).
Variable io_fails : io_op -> FS -> option (exn * FS).

(** Writes that all succeed leave every other path as it was. *)
Lemma write_all_other file_path other texts : forall fs u fs',
  write_all encode io_fails file_path texts fs = (Ok u, fs') ->
  other <> file_path -> fs' !! other = fs !! other.
Proof.
  induction texts as [|text rest IH]; intros fs u fs' H Hne; simpl in H.
  - injection H as _ <-. reflexivity.
  - unfold file_write in H. destruct (encode text) as [bytes|e];
      [|discriminate].
    destruct (io_fails (Write file_path bytes) fs) as [[e fs1]|];
      [discriminate|].
    rewrite (IH _ _ _ H Hne). apply lookup_alter_ne. auto.
Qed.

(** When no write raises, the file holds what it held followed by the
    encodings of the texts, in order. *)
Lemma write_all_content file_path texts : forall fs u fs' content,
  write_all encode io_fails file_path texts fs = (Ok u, fs') ->
  fs !! file_path = Some content ->
  exists chunks,
    Forall2 (fun text bytes => encode text = Ok bytes) texts chunks /\
    fs' !! file_path = Some (content ++ concat chunks).
Proof.
  induction texts as [|text rest IH]; intros fs u fs' content H Hc; simpl in H.
  - injection H as _ <-. exists []. split; [constructor|].
    rewrite Hc, app_nil_r. reflexivity.
  - unfold file_write in H. destruct (encode text) as [bytes|e] eqn:E;
      [|discriminate].
    destruct (io_fails (Write file_path bytes) fs) as [[e fs1]|];
      [discriminate|].
    destruct (IH _ _ _ (content ++ bytes) H) as (chunks & Hall & Hfs).
    { rewrite lookup_alter_eq, Hc. reflexivity. }
    exists (bytes :: chunks). split; [constructor; assumption|].
    rewrite Hfs. simpl. rewrite app_assoc. reflexivity.
Qed.

(** A write that raises raises the codec error of one of the texts or
    the error of a failed output step on the file. *)
Lemma write_all_raise file_path texts : forall fs e fs',
  write_all encode io_fails file_path texts fs = (Raise e, fs') ->
  (exists text, text ∈ texts /\ encode text = Raise e) \/
  (exists op fs0 fs1, io_on file_path op /\ io_fails op fs0 = Some (e, fs1)).
Proof.
  induction texts as [|text rest IH]; intros fs e fs' H; simpl in H;
    [discriminate|].
  unfold file_write in H. destruct (encode text) as [bytes|e0] eqn:E.
  - destruct (io_fails (Write file_path bytes) fs) as [[e1 fs1]|] eqn:Eio.
    + injection H as <- _. right. exists (Write file_path bytes), fs, fs1.
      split; [right; left; eauto|exact Eio].
    + destruct (IH _ _ _ H) as [(t & Ht & He)|Hio]; [left|right; exact Hio].
      exists t. split; [right|]; auto.
  - injection H as <- _. left. exists text. split; [left|exact E].
Qed.

(** A text file written without an exception was opened empty, written
    and closed, no step failing. *)
Lemma write_text_file_ok file_path texts fs u fs' :
  write_text_file encode io_fails file_path texts fs = (Ok u, fs') ->
  write_all encode io_fails file_path texts (<[file_path := []]> fs)
    = (Ok u, fs').
Proof.
  unfold write_text_file. intros H.
  destruct (io_fails (OpenW file_path) fs) as [[e fs1]|]; [discriminate|].
  destruct (write_all encode io_fails file_path texts (<[file_path := []]> fs))
    as [written fs2].
  destruct (io_fails (Close file_path) fs2) as [[e fs3]|]; [discriminate|].
  exact H.
Qed.

Lemma write_text_file_raise file_path texts fs e fs' :
  write_text_file encode io_fails file_path texts fs = (Raise e, fs') ->
  (exists text, text ∈ texts /\ encode text = Raise e) \/
  (exists op fs0 fs1, io_on file_path op /\ io_fails op fs0 = Some (e, fs1)).
Proof.
  unfold write_text_file. intros H.
  destruct (io_fails (OpenW file_path) fs) as [[e0 fs1]|] eqn:Eopen.
  { injection H as <- _. right. exists (OpenW file_path), fs, fs1.
    split; [left; reflexivity|exact Eopen]. }
  destruct (write_all encode io_fails file_path texts (<[file_path := []]> fs))
    as [written fs2] eqn:Ewrite.
  destruct (io_fails (Close file_path) fs2) as [[e0 fs3]|] eqn:Eclose.
  { injection H as <- _. right. exists (Close file_path), fs2, fs3.
    split; [right; right; reflexivity|exact Eclose]. }
  injection H as -> _. exact (write_all_raise _ _ _ _ _ Ewrite).
Qed.

Variable ids : str * str * str.
Variable body : SeminarKitRequest.t.
Variable fs : FS.

Let topic := SeminarKitRequest.topic body.
Let student_info :=
  {| name := SeminarKitRequest.name body;
     roll := SeminarKitRequest.roll body;
     college := SeminarKitRequest.college body;
     semester := SeminarKitRequest.semester body;
     branch := SeminarKitRequest.branch body |}.
Let sections := generate_detailed_content (shipped_generate create) topic.
Let qna_pairs :=
  kit_qna_pairs topic (gpt_generate create (qna_prompt topic) 1200).

(** A returned response comes from three stages that all succeeded. *)
Lemma generate_kit_ok response fs' :
  generate_kit create upper STATIC_PATH save_pptx save_docx encode io_fails
    ids body fs = (Ok response, fs') ->
  exists fs1 fs2 u,
    generate_enhanced_pptx upper STATIC_PATH save_pptx ids.1.1 topic sections
      student_info fs
      = (Ok (lit "seminar_" ++ ids.1.1 ++ lit ".pptx"), fs1) /\
    generate_docx upper STATIC_PATH save_docx ids.1.2 topic sections
      student_info qna_pairs fs1
      = (Ok (lit "seminar_" ++ ids.1.2 ++ lit ".docx"), fs2) /\
    is_Some (fs2 !! path_join STATIC_PATH
                      (lit "seminar_" ++ ids.1.2 ++ lit ".docx")) /\
    write_all encode io_fails
      (path_join STATIC_PATH (lit "qna_" ++ ids.2 ++ lit ".txt"))
      (qna_file_writes topic student_info qna_pairs)
      (<[path_join STATIC_PATH (lit "qna_" ++ ids.2 ++ lit ".txt") := []]> fs2)
      = (Ok u, fs') /\
    response =
      {| success := true;
         message := lit "Enhanced seminar kit generated successfully!";
         pptx_url := lit "http://localhost:8000/download/"
                     ++ lit "seminar_" ++ ids.1.1 ++ lit ".pptx";
         docx_url := lit "http://localhost:8000/download/"
                     ++ lit "seminar_" ++ ids.1.2 ++ lit ".docx";
         qna_url := lit "http://localhost:8000/download/"
                    ++ lit "qna_" ++ ids.2 ++ lit ".txt";
         details :=
           {| sections_generated := length sections;
              questions_generated := length qna_pairs;
              presentation_slides := length sections + 3 |} |}.
Proof.
  unfold generate_kit. destruct ids as [[pptx_id docx_id] qna_id].
  fold topic student_info sections qna_pairs. cbn [fst snd]. intros H.
  destruct (generate_enhanced_pptx upper STATIC_PATH save_pptx pptx_id topic
              sections student_info fs) as [[pptx_name|e] fs1] eqn:E1;
    [|discriminate].
  destruct (generate_enhanced_pptx_ok _ _ _ _ _ _ _ _ _ _ E1) as [-> _].
  destruct (generate_docx upper STATIC_PATH save_docx docx_id topic sections
              student_info qna_pairs fs1) as [[docx_name|e] fs2] eqn:E2;
    [|discriminate].
  destruct (generate_docx_ok _ _ _ _ _ _ _ _ _ _ _ E2) as [-> Hdocx].
  destruct (write_text_file encode io_fails _ _ _) as [[u|e] fs3] eqn:E3;
    [|discriminate].
  injection H as <- <-. exists fs1, fs2, u.
  split; [first [reflexivity | exact E1]|].
  split; [first [reflexivity | exact E2]|]. split; [exact Hdocx|].
  split; [exact (write_text_file_ok _ _ _ _ _ E3)|reflexivity].
Qed.

End EndpointProperties.

Lemma build_presentation_length upper topic sections student_info :
  length (build_presentation upper topic sections student_info)
    = (length sections + 3)%nat.
Proof.
  unfold build_presentation. rewrite fold_left_snoc.
  rewrite !length_app, length_map. simpl. lia.
Qed.

Lemma docx_qna_paths_differ STATIC_PATH docx_id qna_id :
  path_join STATIC_PATH (lit "seminar_" ++ docx_id ++ lit ".docx")
    <> path_join STATIC_PATH (lit "qna_" ++ qna_id ++ lit ".txt").
Proof.
  destruct (path_join_relative STATIC_PATH
              (lit "seminar_" ++ docx_id ++ lit ".docx") eq_refl)
    as (sep & -> & Hsep).
  rewrite Hsep by reflexivity. intros H.
  repeat apply app_inv_head in H. simpl in H. discriminate H.
Qed.

(** X12: a response returned by generate_kit reports success, at least
    four sections and at least five questions, a slide count equal to the
    number of slides of the deck built for the request, and the three
    download URLs of the artifacts named after the three identifiers. *)
Theorem generate_kit_response create upper STATIC_PATH save_pptx save_docx
    encode io_fails ids body fs response fs' :
  generate_kit create upper STATIC_PATH save_pptx save_docx encode io_fails
    ids body fs = (Ok response, fs') ->
  let topic := SeminarKitRequest.topic body in
  let sections := generate_detailed_content (shipped_generate create) topic in
  success response = true /\
  sections_generated (details response) = length sections /\
  (4 <= sections_generated (details response))%nat /\
  (5 <= questions_generated (details response))%nat /\
  presentation_slides (details response)
    = length (build_presentation upper topic sections (student_of_request body)) /\
  pptx_url response
    = lit "http://localhost:8000/download/seminar_" ++ ids.1.1 ++ lit ".pptx" /\
  docx_url response
    = lit "http://localhost:8000/download/seminar_" ++ ids.1.2 ++ lit ".docx" /\
  qna_url response
    = lit "http://localhost:8000/download/qna_" ++ ids.2 ++ lit ".txt".
Proof.
  intros H topic sections.
  destruct (generate_kit_ok _ _ _ _ _ _ _ _ _ _ _ _ H)
    as (fs1 & fs2 & u & _ & _ & _ & _ & ->).
  cbn [success details sections_generated questions_generated
       presentation_slides pptx_url docx_url qna_url].
  rewrite build_presentation_length.
  repeat split.
  - apply generate_detailed_content_shape.
  - apply kit_qna_pairs_shape.
Qed.

Lemma generate_kit_response_witness :
  exists response fs',
    generate_kit (create_answering four_sections_text) upper_ascii
      (lit "/srv/generated_files") (save_writing (lit "PK"))
      (save_writing (lit "PK")) utf8 io_never_fails
      (lit "1f0e", lit "2a3b", lit "3c4d") a_request ∅ = (Ok response, fs') /\
    sections_generated (details response) = 4%nat /\
    pptx_url response = lit "http://localhost:8000/download/seminar_1f0e.pptx".
Proof.
  eexists _, _. split; [vm_compute; reflexivity|].
  split.
  - vm_compute. reflexivity.
  - eapply (generate_kit_response (create_answering four_sections_text)
              upper_ascii (lit "/srv/generated_files")
              (save_writing (lit "PK")) (save_writing (lit "PK")) utf8
              io_never_fails
              (lit "1f0e", lit "2a3b", lit "3c4d") a_request ∅).
    vm_compute. reflexivity.
Defined.

(** X13: when generate_kit returns a response, the transcript file holds
    exactly the encodings of the header lines and of the three blocks of
    each pair, in order, and the report is still in place; if the codec
    gives no empty encoding to a non-empty text, download_file then
    serves the transcript as plain text. *)
Theorem generate_kit_transcript create upper STATIC_PATH save_pptx save_docx
    encode io_fails ids body fs response fs' :
  generate_kit create upper STATIC_PATH save_pptx save_docx encode io_fails
    ids body fs = (Ok response, fs') ->
  let topic := SeminarKitRequest.topic body in
  let qna_pairs :=
    kit_qna_pairs topic (gpt_generate create (qna_prompt topic) 1200) in
  let qna_filename := lit "qna_" ++ ids.2 ++ lit ".txt" in
  exists chunks,
    Forall2 (fun text bytes => encode text = Ok bytes)
      (qna_file_writes topic (student_of_request body) qna_pairs) chunks /\
    fs' !! path_join STATIC_PATH qna_filename = Some (concat chunks) /\
    is_Some (fs' !! path_join STATIC_PATH
                      (lit "seminar_" ++ ids.1.2 ++ lit ".docx")) /\
    ((forall text bytes, encode text = Ok bytes -> text <> [] -> bytes <> []) ->
     download_file STATIC_PATH qna_filename fs'
       = Ok {| path := path_join STATIC_PATH qna_filename;
               filename := qna_filename;
               media_type := lit "text/plain";
               content_disposition :=
                 lit "attachment; filename=" ++ qna_filename |}).
Proof.
  intros H topic qna_pairs qna_filename.
  destruct (generate_kit_ok _ _ _ _ _ _ _ _ _ _ _ _ H)
    as (fs1 & fs2 & u & _ & _ & Hdocx & Hwrite & _).
  destruct (write_all_content _ _ _ _ _ _ _ [] Hwrite) as (chunks & Hall & Hfs).
  { apply lookup_insert_eq. }
  exists chunks. split; [exact Hall|]. split; [exact Hfs|]. split.
  - rewrite (write_all_other _ _ _ _ _ _ _ _ Hwrite)
      by apply docx_qna_paths_differ.
    rewrite lookup_insert_ne by (apply not_eq_sym, docx_qna_paths_differ).
    exact Hdocx.
  - intros Hcodec. simpl in Hfs.
    unfold qna_file_writes in Hall. simpl in Hall.
    inversion Hall as [|header bytes texts rest Hheader Hrest]; subst.
    assert (bytes <> []) as Hbytes by (apply (Hcodec _ _ Hheader); discriminate).
    destruct bytes as [|b bytes]; [congruence|].
    apply (download_file_existing _ _ _ b (bytes ++ concat rest)).
    + exact Hfs.
    + unfold qna_filename, endswith. rewrite !rev_app_distr. reflexivity.
Qed.

Lemma generate_kit_transcript_witness :
  exists fs',
    snd (generate_kit (create_answering four_sections_text) upper_ascii
           (lit "/srv/generated_files") (save_writing (lit "PK"))
           (save_writing (lit "PK")) utf8 io_never_fails
           (lit "1f0e", lit "2a3b", lit "3c4d") a_request ∅) = fs' /\
    download_file (lit "/srv/generated_files") (lit "qna_3c4d.txt") fs'
      = Ok {| path := lit "/srv/generated_files/qna_3c4d.txt";
              filename := lit "qna_3c4d.txt";
              media_type := lit "text/plain";
              content_disposition := lit "attachment; filename=qna_3c4d.txt" |}.
Proof.
  eexists. split; [reflexivity|].
  destruct (generate_kit (create_answering four_sections_text) upper_ascii
              (lit "/srv/generated_files") (save_writing (lit "PK"))
              (save_writing (lit "PK")) utf8 io_never_fails
              (lit "1f0e", lit "2a3b", lit "3c4d") a_request ∅)
    as [[response|e] fs'] eqn:E.
  - destruct (generate_kit_transcript _ _ _ _ _ _ _ _ _ _ _ _ E)
      as (chunks & _ & _ & _ & Hdownload).
    exact (Hdownload utf8_nonempty).
  - vm_compute in E. discriminate E.
Defined.

Lemma generate_enhanced_pptx_raise upper STATIC_PATH save_pptx file_id topic
    sections student_info fs e fs' :
  generate_enhanced_pptx upper STATIC_PATH save_pptx file_id topic sections
    student_info fs = (Raise e, fs') ->
  exists cause, e = Exception (lit "Failed to create enhanced PPTX: " ++ cause).
Proof.
  unfold generate_enhanced_pptx. intros H.
  destruct (save_pptx _ _ fs) as [[[]|e0] fs1]; simpl in H.
  - destruct (path_exists fs1 _); simpl in H; [discriminate|].
    injection H as <- _. eauto.
  - injection H as <- _. eauto.
Qed.

Lemma generate_docx_raise upper STATIC_PATH save_docx file_id topic sections
    student_info qna fs e fs' :
  generate_docx upper STATIC_PATH save_docx file_id topic sections
    student_info qna fs = (Raise e, fs') ->
  exists cause, e = Exception (lit "Failed to create enhanced DOCX: " ++ cause).
Proof.
  unfold generate_docx. intros H.
  destruct (save_docx _ _ fs) as [[[]|e0] fs1]; simpl in H.
  - destruct (path_exists fs1 _); simpl in H.
    + destruct (getsize fs1 _); simpl in H; [discriminate|].
      injection H as <- _. eauto.
    + injection H as <- _. eauto.
  - injection H as <- _. eauto.
Qed.

(** X14: every exception generate_kit raises is an HTTPException with
    status 500 whose detail is the kit-failure prefix followed by the
    cause, and the cause is one of four: the wrapped message of the slide
    renderer; the wrapped message of the report renderer; the message of
    the codec error on one of the texts written to the transcript; the
    message of the error of a failed step (opening, output of a write,
    closing) on the transcript file. *)
Theorem generate_kit_failure create upper STATIC_PATH save_pptx save_docx
    encode io_fails ids body fs e fs' :
  generate_kit create upper STATIC_PATH save_pptx save_docx encode io_fails
    ids body fs = (Raise e, fs') ->
  let topic := SeminarKitRequest.topic body in
  let qna_pairs :=
    kit_qna_pairs topic (gpt_generate create (qna_prompt topic) 1200) in
  let qna_file_path :=
    path_join STATIC_PATH (lit "qna_" ++ ids.2 ++ lit ".txt") in
  exists cause,
    e = HTTPException 500
          (lit "Failed to generate enhanced seminar kit: " ++ cause) /\
    ((exists m, cause = lit "Failed to create enhanced PPTX: " ++ m) \/
     (exists m, cause = lit "Failed to create enhanced DOCX: " ++ m) \/
     (exists text e0,
        text ∈ qna_file_writes topic (student_of_request body) qna_pairs /\
        encode text = Raise e0 /\ cause = str_of_exn e0) \/
     (exists op fs0 e0 fs1,
        io_on qna_file_path op /\ io_fails op fs0 = Some (e0, fs1) /\
        cause = str_of_exn e0)).
Proof.
  unfold generate_kit. destruct ids as [[pptx_id docx_id] qna_id].
  cbn [fst snd]. intros H.
  destruct (generate_enhanced_pptx _ _ _ _ _ _ _ _) as [[pptx_name|e1] fs1] eqn:E1.
  2: { injection H as <- _.
       destruct (generate_enhanced_pptx_raise _ _ _ _ _ _ _ _ _ _ E1) as [m ->].
       eexists. split; [reflexivity|]. left. eauto. }
  destruct (generate_docx _ _ _ _ _ _ _ _ _) as [[docx_name|e2] fs2] eqn:E2.
  2: { injection H as <- _.
       destruct (generate_docx_raise _ _ _ _ _ _ _ _ _ _ _ E2) as [m ->].
       eexists. split; [reflexivity|]. right. left. eauto. }
  destruct (write_text_file _ _ _ _ _) as [[u|e3] fs3] eqn:E3; [discriminate|].
  injection H as <- _.
  eexists. split; [reflexivity|]. right. right.
  destruct (write_text_file_raise _ _ _ _ _ _ _ E3)
    as [(text & Ht & He)|(op & fs0 & fs4 & Hop & Hio)].
  - left. exists text, e3. auto.
  - right. exists op, fs0, e3, fs4. auto.
Qed.

Lemma generate_kit_failure_witness :
  exists cause,
    fst (generate_kit create_raising upper_ascii (lit "/srv/generated_files")
           (save_writing (lit "PK")) (save_writing (lit "PK")) utf8
           io_open_denied (lit "1f0e", lit "2a3b", lit "3c4d") a_request ∅)
    = Raise (HTTPException 500
               (lit "Failed to generate enhanced seminar kit: " ++ cause)).
Proof.
  destruct (generate_kit create_raising upper_ascii (lit "/srv/generated_files")
              (save_writing (lit "PK")) (save_writing (lit "PK")) utf8
              io_open_denied (lit "1f0e", lit "2a3b", lit "3c4d") a_request ∅)
    as [[response|e] fs'] eqn:E.
  - vm_compute in E. discriminate E.
  - destruct (generate_kit_failure _ _ _ _ _ _ _ _ _ _ _ _ E)
      as (cause & -> & _).
    exists cause. reflexivity.
Defined.

(** ** Line feeds *)

Lemma elem_of_lstrip_by p s c : c ∈ lstrip_by p s -> c ∈ s.
Proof.
  induction s as [|a s IH]; simpl; [auto|].
  destruct (p a); [|auto]. intros H. right. auto.
Qed.

Lemma elem_of_rstrip_by p s c : c ∈ rstrip_by p s -> c ∈ s.
Proof.
  induction s as [|a s IH]; simpl; [auto|].
  destruct (rstrip_by p s) as [|b r].
  - destruct (p a); intros H; [inversion H|].
    apply list_elem_of_singleton in H as ->. left.
  - intros H. apply elem_of_cons in H as [->|H]; [left|right; auto].
Qed.

Lemma elem_of_strip s c : c ∈ strip s -> c ∈ s.
Proof. intros H. eapply elem_of_lstrip_by, elem_of_rstrip_by, H. Qed.

Lemma elem_of_replace_from old s c : forall skip,
  c ∈ replace_from old [] s skip -> c ∈ s.
Proof.
  induction s as [|a s IH]; intros skip; simpl; [auto|].
  destruct skip as [|k].
  - destruct (startswith (a :: s) old); simpl; intros H.
    + right. eauto.
    + apply elem_of_cons in H as [->|H]; [left|right; eauto].
  - intros H. right. eauto.
Qed.

Lemma elem_of_replace old s c : c ∈ replace old [] s -> c ∈ s.
Proof.
  destruct old as [|o old]; simpl.
  - induction s as [|a s IH]; simpl; [auto|].
    intros H. apply elem_of_cons in H as [->|H]; [left|right; auto].
  - apply elem_of_replace_from.
Qed.

(** The pieces [split] returns hold no separator. *)
Lemma split_no_sep sep s : forall l, l ∈ split sep s -> sep ∉ l.
Proof.
  induction s as [|c s IH]; simpl; intros l H.
  - apply list_elem_of_singleton in H as ->. apply not_elem_of_nil.
  - destruct (c =? sep) eqn:E.
    + apply elem_of_cons in H as [->|H]; [apply not_elem_of_nil|auto].
    + destruct (split sep s) as [|h t].
      * apply list_elem_of_singleton in H as ->.
        apply N.eqb_neq in E. intros Hin.
        apply list_elem_of_singleton in Hin. congruence.
      * apply elem_of_cons in H as [->|H].
        -- intros Hin. apply elem_of_cons in Hin as [->|Hin].
           ++ rewrite N.eqb_refl in E. discriminate.
           ++ apply (IH h); [left|exact Hin].
        -- apply IH. right. exact H.
Qed.

Section OutlineOrigin.

Variable lines : list str.
Variable P : section -> Prop.
Hypothesis P_new : forall raw before after,
  raw ∈ lines -> strip raw = before ++ COLON :: after ->
  P (new_section (strip after)).
Hypothesis P_point : forall raw chars s,
  raw ∈ lines -> P s ->
  P (append_point (strip (lstrip chars (strip raw))) s).

Lemma outline_step_origin st raw :
  raw ∈ lines -> outline_inv P st ->
  exists st', outline_step st raw = Ok st' /\ outline_inv P st'.
Proof.
  intros Hraw Hinv. destruct st as [sections cur]. unfold outline_step.
  assert (forall chars,
            outline_inv P
              (sections,
               append_point (strip (lstrip chars (strip raw))) <$> cur))
    as Hpoint.
  { intros chars. destruct Hinv as [H1 H2]. split; [exact H1|].
    destruct cur as [c|]; simpl; intros s [= <-]. apply P_point; auto. }
  destruct (negb (truthy (strip raw))); [eauto|].
  destruct (startswith (strip raw) (lit "Section")
            && contains COLON (strip raw)) eqn:Hstart.
  - apply andb_true_iff in Hstart as [_ Hc].
    destruct (split1_spec _ _ Hc) as (before & after & -> & Hline & _).
    cbn [index lookup list_lookup mbind result_bind].
    eexists. split; [reflexivity|]. split; cbn [fst snd].
    + destruct Hinv as [H1 H2]. destruct cur as [c|]; simpl in *; [|exact H1].
      apply Forall_app. split; [exact H1|]. constructor; auto.
    + intros s [= <-]. eapply P_new; eauto.
  - repeat match goal with
           | |- context [if ?b then _ else _] => destruct b
           end; eauto.
Qed.

Lemma parse_outline_origin_loop xs : forall st,
  (forall x, x ∈ xs -> x ∈ lines) -> outline_inv P st ->
  exists st', for_each outline_step xs st = Ok st' /\ outline_inv P st'.
Proof.
  induction xs as [|x xs IH]; intros st Hsub Hinv; simpl; [eauto|].
  destruct (outline_step_origin st x) as (st1 & -> & H1); auto.
  { apply Hsub. left. }
  cbn [mbind result_bind]. apply IH; auto.
  intros y Hy. apply Hsub. right. exact Hy.
Qed.

End OutlineOrigin.

Lemma parse_outline_one_line_sections text :
  exists sections,
    parse_outline text = Ok sections /\
    Forall
      (fun s =>
         (NL ∉ title s) /\ Forall (fun point => NL ∉ point) (points s))
      sections.
Proof.
  unfold parse_outline.
  assert (forall raw before after,
            raw ∈ split NL text -> strip raw = before ++ COLON :: after ->
            one_line_section (new_section (strip after))) as Hnew.
  { intros raw before after Hraw Hline. split; [|constructor].
    simpl. intros Hin. apply elem_of_strip in Hin.
    apply (split_no_sep NL text raw Hraw).
    apply elem_of_strip. rewrite Hline.
    apply elem_of_app. right. right. exact Hin. }
  assert (forall raw chars s,
            raw ∈ split NL text -> one_line_section s ->
            one_line_section
              (append_point (strip (lstrip chars (strip raw))) s)) as Hpoint.
  { intros raw chars s Hraw [Ht Hp]. split; [exact Ht|].
    simpl. apply Forall_app. split; [exact Hp|].
    constructor; [|constructor]. intros Hin.
    apply (split_no_sep NL text raw Hraw).
    apply elem_of_strip. eapply elem_of_lstrip_by.
    apply elem_of_strip. exact Hin. }
  assert (outline_inv one_line_section ([], None)) as Hinit
    by (split; simpl; [constructor|discriminate]).
  destruct (parse_outline_origin_loop (split NL text) one_line_section
              Hnew Hpoint (split NL text) ([], None) (fun x H => H) Hinit)
    as (st & -> & [H1 H2]).
  cbn [mbind result_bind]. eexists. split; [reflexivity|].
  destruct st as [sections [c|]]; simpl in *; [|exact H1].
  apply Forall_app. split; [exact H1|].
  constructor; [exact (H2 c eq_refl)|constructor].
Qed.

(** X15: no title and no point of a parsed section holds a line feed. *)
Theorem parse_outline_one_line text :
  exists sections,
    parse_outline text = Ok sections /\
    Forall
      (fun s =>
         (NL ∉ title s) /\ Forall (fun point => NL ∉ point) (points s))
      sections.
Proof. exact (parse_outline_one_line_sections text). Qed.

Lemma qna_step_one_line st raw :
  NL ∉ raw -> qna_one_line st -> qna_one_line (qna_step st raw).
Proof.
  destruct st as [[qna_pairs current_q] current_a].
  intros Hraw (Hp & Hq & Ha). simpl in Hp, Hq, Ha.
  assert (NL ∉ strip raw) as Hline
    by (intros H; apply Hraw; apply elem_of_strip; exact H).
  assert (forall old1 old2,
            NL ∉ strip (replace old1 [] (replace old2 [] (strip raw))))
    as Hclean.
  { intros old1 old2 H. apply Hline.
    eapply elem_of_replace, elem_of_replace, elem_of_strip, H. }
  unfold qna_step.
  repeat match goal with
         | |- context [if ?b then _ else _] => destruct b
         end;
    repeat split; cbn [fst snd]; auto using not_elem_of_nil.
  - apply Forall_app. split; [exact Hp|].
    constructor; [split; assumption|constructor].
  - intros H. apply elem_of_app in H as [H|H]; [auto|].
    apply elem_of_app in H as [H|H]; [|auto].
    apply list_elem_of_singleton in H. discriminate H.
Qed.

(** X16: no question and no answer of a parsed pair holds a line feed. *)
Theorem parse_qna_one_line qna_text :
  Forall (fun p => (NL ∉ question p) /\ (NL ∉ answer p))
    (parse_qna qna_text).
Proof.
  unfold parse_qna.
  assert (forall xs st,
            (forall x, x ∈ xs -> NL ∉ x) -> qna_one_line st ->
            qna_one_line (fold_left qna_step xs st)) as Hloop.
  { induction xs as [|x xs IH]; intros st Hxs Hst; simpl; [exact Hst|].
    apply IH; [intros y Hy; apply Hxs; right; exact Hy|].
    apply qna_step_one_line; [apply Hxs; left|exact Hst]. }
  assert (qna_one_line ([], [], [])) as Hinit
    by (split; [constructor|split; apply not_elem_of_nil]).
  specialize (Hloop (split NL qna_text) ([], [], [])
                (split_no_sep NL qna_text) Hinit).
  destruct (fold_left qna_step (split NL qna_text) ([], [], []))
    as [[qna_pairs current_q] current_a].
  destruct Hloop as (Hp & Hq & Ha).
  simpl in Hp, Hq, Ha.
  destruct (truthy current_q && truthy current_a); [|exact Hp].
  apply Forall_app. split; [exact Hp|].
  constructor; [split; assumption|constructor].
Qed.

(** ** Agenda *)

Lemma contains_false c s : contains c s = false -> c ∉ s.
Proof.
  induction s as [|a s IH]; simpl; [intros _; apply not_elem_of_nil|].
  intros H. apply orb_false_iff in H as [H1 H2].
  apply not_elem_of_cons. split; [|auto].
  apply N.eqb_neq in H1. exact H1.
Qed.

Lemma str_of_nat_one_line n : NL ∉ str_of_nat n.
Proof.
  unfold str_of_nat, NilZero.string_of_uint.
  assert (forall d, NL ∉ lit (NilEmpty.string_of_uint d)) as Hd.
  { induction d; simpl; try apply not_elem_of_nil;
      (apply not_elem_of_cons; split; [discriminate|exact IHd]). }
  destruct (Nat.to_uint n); try apply Hd.
  apply contains_false. reflexivity.
Qed.

Lemma agenda_from_eq sections : forall i agenda_text,
  agenda_from i sections agenda_text
    = agenda_text
      ++ concat (map (fun line => line ++ [NL]) (numbered_from i sections)).
Proof.
  induction sections as [|s rest IH]; intros i text.
  - symmetry. apply app_nil_r.
  - cbn [agenda_from numbered_from map concat].
    rewrite IH, <- !app_assoc. reflexivity.
Qed.

Lemma split_line l rest :
  NL ∉ l -> split NL (l ++ NL :: rest) = l :: split NL rest.
Proof.
  induction l as [|c l IH]; intros H; simpl; [reflexivity|].
  apply not_elem_of_cons in H as [Hc Hl].
  destruct (c =? NL) eqn:E; [apply N.eqb_eq in E; congruence|].
  rewrite (IH Hl). reflexivity.
Qed.

Lemma split_lines lines :
  Forall (fun l => NL ∉ l) lines ->
  split NL (concat (map (fun line => line ++ [NL]) lines)) = lines ++ [[]].
Proof.
  induction 1 as [|l lines Hl _ IH]; simpl; [reflexivity|].
  rewrite <- app_assoc. simpl. rewrite (split_line _ _ Hl), IH. reflexivity.
Qed.

Lemma numbered_from_one_line sections : forall i,
  Forall (fun s => NL ∉ title s) sections ->
  Forall (fun l => NL ∉ l) (numbered_from i sections).
Proof.
  induction sections as [|s rest IH]; intros i H; cbn [numbered_from];
    [constructor|].
  inversion H as [|? ? Hs Hrest]; subst. constructor; [|auto].
  intros Hin. apply elem_of_app in Hin as [Hin|Hin].
  { exact (str_of_nat_one_line i Hin). }
  apply elem_of_app in Hin as [Hin|Hin]; [|auto].
  revert Hin. apply contains_false. reflexivity.
Qed.

(** X17: whatever the text source does, the agenda slide of the sections
    the outline stage returns has one line per section, in order, each
    being the number of the section from 1, a dot, a space and the title,
    followed by one empty last line. *)
Theorem agenda_lines generate topic :
  let sections := generate_detailed_content generate topic in
  split NL (agenda_text sections) = numbered_from 1 sections ++ [[]].
Proof.
  intros sections. unfold agenda_text. rewrite agenda_from_eq. simpl.
  apply split_lines, numbered_from_one_line.
  unfold sections, generate_detailed_content, outline_try.
  assert (forall t, Forall (fun s => NL ∉ title s) (fallback_sections t))
    as Hfallback
    by (intros t; repeat constructor; apply contains_false; reflexivity).
  destruct (generate (structure_prompt topic) 1500%nat) as [text|e];
    cbn [mbind result_bind];
    [|repeat constructor; apply contains_false; reflexivity].
  destruct (parse_outline_one_line_sections text) as (parsed & -> & Hp).
  cbn [mbind result_bind].
  destruct (length parsed <? 4)%nat; [apply Hfallback|].
  eapply Forall_impl; [exact Hp|]. intros s [Ht _]. exact Ht.
Qed.

(** ** Report body of a section *)

(** X18: whatever the text source does, the report blocks of every
    section the outline stage returns are its numbered heading, one
    bulleted paragraph per point in order and one empty paragraph: the
    Detailed Information block never appears. *)
Theorem report_section_without_details generate topic :
  Forall
    (fun s =>
       forall i,
         section_blocks i s =
           Heading (str_of_nat i ++ lit ". " ++ title s) 1
           :: map (fun point => Paragraph (BULLET :: SPACE :: point) None)
                (points s)
           ++ [Paragraph [] None])
    (generate_detailed_content generate topic).
Proof.
  eapply Forall_impl;
    [exact (proj2 (generate_detailed_content_shape generate topic))|].
  intros s Hs i. unfold section_blocks.
  rewrite (fold_left_snoc (fun point => Paragraph (BULLET :: SPACE :: point) None)).
  destruct Hs as [-> | ->]; reflexivity.
Qed.
